(** * Joulescope UI: the JS220 device session and the waveform time map

    A shallow embedding of [joulescope_ui/devices/jsdrv/js220.py] (the
    [Js220] device wrapper: settings handler, current-range policy, signal
    forwarding, statistics normalisation, firmware check, open/close
    requests) and of the [TimeMap] used by the waveform widget, together
    with the properties the specification states about them. *)

From Stdlib Require Import ZArith List String Ascii Bool Lia QArith Qfield.
From Stdlib Require Import Qround Qabs Lqa.
From Stdlib Require Import DecimalString.
Import ListNotations.

Local Open Scope Z_scope.
Local Open Scope string_scope.
Local Open Scope list_scope.

(** ** Python values and the small pieces of the Python runtime the code uses *)

Module Py.

(** The values that travel over the settings bus and to the driver:
    [None], [bool], [int], [str] and lists of these. *)
#[local] Unset Elimination Schemes.
Inductive pyval : Type :=
| VNone
| VBool (b : bool)
| VInt (z : Z)
| VStr (s : string)
| VList (l : list pyval).
#[local] Set Elimination Schemes.

(** The exceptions the modelled code can raise. *)
Inductive exn : Type :=
| KeyError (key : pyval)
| IndexError
| ValueError
| TypeError
| ZeroDivisionError
| Exception (what : string).

Inductive outcome (A : Type) : Type :=
| Returned (a : A)
| Raised (e : exn).
Arguments Returned {A} a.
Arguments Raised {A} e.

(** [str.startswith]: [startswith p s] is [s.startswith(p)]. *)
Definition startswith (p s : string) : bool := String.prefix p s.

(** [s[n:]] for [0 <= n]. *)
Fixpoint drop (n : nat) (s : string) : string :=
  match n, s with
  | O, _ => s
  | S n', String _ s' => drop n' s'
  | S _, EmptyString => EmptyString
  end.

(** [s[:n]] for [0 <= n]. *)
Fixpoint take (n : nat) (s : string) : string :=
  match n, s with
  | O, _ => EmptyString
  | S n', String c s' => String c (take n' s')
  | S _, EmptyString => EmptyString
  end.

(** [str.endswith]: [endswith p s] is [s.endswith(p)]. *)
Definition endswith (p s : string) : bool :=
  let n := String.length s in
  let m := String.length p in
  (m <=? n)%nat && String.eqb (drop (n - m) s) p.

(** [s.split(sep)] for a one-character separator: never returns [[]]. *)
Fixpoint split (sep : ascii) (s : string) : list string :=
  match s with
  | EmptyString => [EmptyString]
  | String c s' =>
      if Ascii.eqb c sep then EmptyString :: split sep s'
      else match split sep s' with
           | [] => [String c EmptyString]
           | w :: ws => String c w :: ws
           end
  end.

(** [d[key]] on a dict with [str] keys, kept in insertion order. *)
Fixpoint dict_get {V : Type} (d : list (string * V)) (key : string) : outcome V :=
  match d with
  | [] => Raised (KeyError (VStr key))
  | (k, v) :: d' => if String.eqb k key then Returned v else dict_get d' key
  end.

(** [d[key]] on a dict with [int] keys. *)
Fixpoint dict_get_int {V : Type} (d : list (Z * V)) (key : Z) : outcome V :=
  match d with
  | [] => Raised (KeyError (VInt key))
  | (k, v) :: d' => if (k =? key)%Z then Returned v else dict_get_int d' key
  end.

(** Sequencing of calls that may raise. *)
Definition and_then {A B : Type} (o : outcome A) (k : A -> outcome B) : outcome B :=
  match o with
  | Returned a => k a
  | Raised e => Raised e
  end.

(** [l[-1]]. *)
Definition list_last {A : Type} (l : list A) : outcome A :=
  match rev l with
  | a :: _ => Returned a
  | [] => Raised IndexError
  end.

(** [l[i]] for [0 <= i]. *)
Definition list_get {A : Type} (l : list A) (i : nat) : outcome A :=
  match nth_error l i with
  | Some a => Returned a
  | None => Raised IndexError
  end.

(** [bool(v)]: Python truthiness. *)
Definition truthy (v : pyval) : bool :=
  match v with
  | VNone => false
  | VBool b => b
  | VInt z => negb (z =? 0)%Z
  | VStr s => negb (String.eqb s EmptyString)
  | VList l => match l with [] => false | _ => true end
  end.

(** The integer behind a value in arithmetic and comparisons: [bool] is a
    subclass of [int]; anything else is a [TypeError]. *)
Definition as_int (v : pyval) : outcome Z :=
  match v with
  | VInt z => Returned z
  | VBool b => Returned (Z.b2z b)
  | _ => Raised TypeError
  end.

(** [int(v)].  A [str] is read as a signed decimal numeral (surrounding
    blanks, a leading [+] and digit-group underscores are not recognised). *)
Definition int (v : pyval) : outcome Z :=
  match v with
  | VInt z => Returned z
  | VBool b => Returned (Z.b2z b)
  | VStr s => match NilZero.int_of_string s with
              | Some d => Returned (Z.of_int d)
              | None => Raised ValueError
              end
  | VNone | VList _ => Raised TypeError
  end.

(** [a // b] on integers: floor division, [ZeroDivisionError] at [b = 0]. *)
Definition floordiv (a b : Z) : outcome Z :=
  if (b =? 0)%Z then Raised ZeroDivisionError else Returned (a / b).

(** [a < b] on numbers. *)
Definition lt (a b : pyval) : outcome bool :=
  match as_int a, as_int b with
  | Returned x, Returned y => Returned (x <? y)%Z
  | Raised e, _ => Raised e
  | _, Raised e => Raised e
  end.

(** [max(a, b)] and [min(a, b)]: the first argument wins a tie and the
    result is one of the two objects, not a copy converted to [int]. *)
Definition max (a b : pyval) : outcome pyval :=
  match lt a b with
  | Returned c => Returned (if c then b else a)
  | Raised e => Raised e
  end.

Definition min (a b : pyval) : outcome pyval :=
  match lt b a with
  | Returned c => Returned (if c then b else a)
  | Raised e => Raised e
  end.

(** [a, b = v]: unpacking into exactly two targets. *)
Definition unpack2 (v : pyval) : outcome (pyval * pyval) :=
  match v with
  | VList [a; b] => Returned (a, b)
  | VList _ => Raised ValueError
  | VStr (String a (String b EmptyString)) =>
      Returned (VStr (String a EmptyString), VStr (String b EmptyString))
  | VStr _ => Raised ValueError
  | VNone | VBool _ | VInt _ => Raised TypeError
  end.

(** [v == z] for an integer literal [z]. *)
Definition eq_int (v : pyval) (z : Z) : bool :=
  match v with
  | VInt x => (x =? z)%Z
  | VBool b => (Z.b2z b =? z)%Z
  | _ => false
  end.

End Py.
Import Py.

(** ** The JS220 device wrapper *)

Module Js220.

(** *** Static tables *)

(** An entry of [_SIGNALS]; the translated [brief] and [detail] texts are
    user documentation and are left out. *)
Record signal_info : Type := {
  name : string;
  dtype : string;
  units : string;
  default : bool;
  topics : string * string
}.

Definition _SIGNALS : list (string * signal_info) :=
  [ ("i", {| name := "current"; dtype := "f32"; units := "A"; default := true;
             topics := ("s/i/ctrl", "s/i/!data") |});
    ("v", {| name := "voltage"; dtype := "f32"; units := "V"; default := true;
             topics := ("s/v/ctrl", "s/v/!data") |});
    ("p", {| name := "power"; dtype := "f32"; units := "W"; default := true;
             topics := ("s/p/ctrl", "s/p/!data") |});
    ("r", {| name := "current range"; dtype := "u8"; units := EmptyString; default := false;
             topics := ("s/i/range/ctrl", "s/i/range/!data") |});
    ("0", {| name := "gpi[0]"; dtype := "u1"; units := EmptyString; default := false;
             topics := ("s/gpi/0/ctrl", "s/gpi/0/!data") |});
    ("1", {| name := "gpi[1]"; dtype := "u1"; units := EmptyString; default := false;
             topics := ("s/gpi/1/ctrl", "s/gpi/1/!data") |});
    ("2", {| name := "gpi[2]"; dtype := "u1"; units := EmptyString; default := false;
             topics := ("s/gpi/2/ctrl", "s/gpi/2/!data") |});
    ("3", {| name := "gpi[3]"; dtype := "u1"; units := EmptyString; default := false;
             topics := ("s/gpi/3/ctrl", "s/gpi/3/!data") |});
    ("T", {| name := "trigger_in"; dtype := "u1"; units := EmptyString; default := false;
             topics := ("s/gpi/7/ctrl", "s/gpi/7/!data") |}) ].

Definition _GPO_BIT : list (string * Z) :=
  [ ("0", Z.shiftl 1 0); ("1", Z.shiftl 1 1); ("T", Z.shiftl 1 7) ].

(** The options of the [state] setting: 0 closed, 1 opening, 2 open,
    3 closing.  The bus stores the option value whichever of the value or
    the option name is published. *)
Inductive state : Type := closed | opening | open | closing.

Definition state_value (s : state) : Z :=
  match s with closed => 0 | opening => 1 | open => 2 | closing => 3 end.

Definition state_name (s : state) : string :=
  match s with
  | closed => "closed" | opening => "opening" | open => "open" | closing => "closing"
  end.

(** *** Messages *)

(** [self._info], the device descriptor. *)
Record device_info : Type := {
  vendor : string;
  model : string;
  version : option (string * string * string);   (* hw, fw, fpga *)
  serial_number : string
}.

(** A sample buffer or another part of a message the wrapper hands on
    without looking into it. *)
Definition blob : Type := list Z.

(** The driver's per-signal stream message, as far as [fn] reads it. *)
Record stream_value : Type := {
  sample_id : Z;
  sample_rate : Z;
  decimate_factor : Z;
  utc : blob;
  data : blob
}.

(** The dict [fwd] built by the forwarding closure. *)
Record signal_event : Type := {
  fwd_source : device_info;
  fwd_sample_id : Z;
  fwd_sample_freq : Z;
  fwd_utc : blob;
  fwd_field : string;
  fwd_data : blob;
  fwd_dtype : string;
  fwd_units : string;
  fwd_origin_sample_id : Z;
  fwd_orig_sample_freq : Z;
  fwd_orig_decimate_factor : Z
}.

(** The driver's statistics message: [value['time']['accum_samples']['value']],
    the two accumulators' ['value'], the ['source'] entry (absent in what
    the driver delivers) and everything else.  The accumulators are kept as
    exact numbers. *)
Record statistics : Type := {
  accum_samples : list Z;
  charge : Z;
  energy : Z;
  source : option string;          (* {'unique_id': ...} *)
  signals : blob
}.

Inductive payload : Type :=
| PVal (v : pyval)
| PInfo (i : device_info)
| PSignal (e : signal_event)
| PStatistics (s : statistics).

Inductive level : Type := info | warning | exception.

(** What a call does to the outside, in program order.  A log record keeps
    the format string; its arguments are not recorded. *)
Inductive effect : Type :=
| driver_publish (topic : string) (value : pyval)
| ui_publish (subtopic : string) (value : payload)
| pubsub_publish (topic : string) (value : payload)
| log (l : level) (fmt : string)
| thread_start (t : nat)
| thread_join (t : nat).

(** Effects so far, then a result or the exception that stopped the call. *)
Definition M (A : Type) : Type := list effect * outcome A.

Definition ret {A : Type} (a : A) : M A := ([], Returned a).

Definition bind {A B : Type} (m : M A) (k : A -> M B) : M B :=
  match m with
  | (tr, Returned a) => let (tr', r) := k a in (tr ++ tr', r)
  | (tr, Raised e) => (tr, Raised e)
  end.

Definition emit (e : effect) : M unit := ([e], Returned tt).

Definition lift {A : Type} (o : outcome A) : M A := ([], o).

Declare Scope js_scope.
Delimit Scope js_scope with js.
Notation "x <- m ;; k" := (bind m (fun x => k))
  (at level 61, m at next level, right associativity) : js_scope.
Notation "m ;; k" := (bind m (fun _ => k))
  (at level 61, right associativity) : js_scope.
Local Open Scope js_scope.

(** A queued command [(cmd, args)]; [args] is [None] or [(topic, value)]. *)
Definition command : Type := string * option (string * pyval).

(** *** The object *)

(** The fields of a [Js220] the modelled methods touch, the settings the
    bus mirrors onto the object ([target_power], [current_range],
    [firmware_channel]), the retained value of its [settings/state] topic,
    and the number of [Thread] objects created so far. *)
Record js220 : Type := {
  unique_id : string;
  topic_name : string;                     (* get_topic_name(self) *)
  _info : device_info;
  _driver_device_open : bool;
  _thread : option nat;
  _quit : bool;
  _target_power_app : bool;
  _queue : list command;
  _statistics_offsets : option (list Z);
  target_power : bool;
  current_range : Z;
  firmware_channel : string;
  settings_state : state;
  threads_created : nat
}.

Definition _driver_publish (topic : string) (value : pyval) : M unit :=
  emit (driver_publish topic value).

Definition _log (l : level) (fmt : string) : M unit := emit (log l fmt).

(** *** [_current_range_update] *)

Definition _current_range_update (self : js220) : M unit :=
  if _target_power_app self && target_power self then
    if (current_range self =? -1)%Z then
      _log info "current_range auto" ;;
      _driver_publish "s/i/range/mode" (VStr "auto")
    else
      _log info "current_range manual %s" ;;
      _driver_publish "s/i/range/select" (VInt (current_range self)) ;;
      _driver_publish "s/i/range/mode" (VStr "manual")
  else
    _log info "current_range off" ;;
    _driver_publish "s/i/range/mode" (VStr "off").

(** *** [_run_cmd_settings] *)

Definition _run_cmd_settings (self : js220) (topic : string) (value : pyval) : M unit :=
  _log info "setting(%s): %s <= %s" ;;
  if endswith "/enable" topic then
    signal_id <- lift (list_get (split "/" topic) 1) ;;
    s <- lift (dict_get _SIGNALS signal_id) ;;
    (* every entry of _SIGNALS has a str control topic, so the source's
       [else] branch (warning 'invalid enable: %s') is never taken *)
    _driver_publish (fst (topics s)) (VBool (truthy value))
  else if startswith "out/" topic then
    v <- lift (dict_get _GPO_BIT (drop 4 topic)) ;;
    _driver_publish (if truthy value then "s/gpo/+/!set" else "s/gpo/+/!clr") (VInt v)
  else if topic =? "signal_frequency" then
    f <- lift (int value) ;;
    _driver_publish "h/fs" (VInt f)
  else if topic =? "statistics_frequency" then
    d <- lift (as_int value) ;;
    scnt <- lift (floordiv 1000000 d) ;;
    _driver_publish "s/stats/scnt" (VInt scnt)
  else if topic =? "target_power" then
    _current_range_update self
  else if topic =? "current_range" then
    _current_range_update self
  else if topic =? "current_range_limits" then
    lim <- lift (match value with
                 | VNone => Returned (VInt 0, VInt 5)
                 | _ => unpack2 value
                 end) ;;
    m0 <- lift (max (VInt 0) (fst lim)) ;;
    i_min <- lift (min (VInt 5) m0) ;;
    m1 <- lift (max (VInt 0) (snd lim)) ;;
    i_max <- lift (min (VInt 5) m1) ;;
    swap <- lift (lt i_max i_min) ;;
    _driver_publish "s/i/range/min" (if swap then i_max else i_min) ;;
    _driver_publish "s/i/range/max" (if swap then i_min else i_max)
  else if topic =? "voltage_range" then
    if eq_int value (-1) then
      _driver_publish "s/v/range/mode" (VStr "auto")
    else
      _driver_publish "s/v/range/mode" (VStr "manual") ;;
      _driver_publish "s/v/range/select" value
  else if topic =? "trigger_dir" then
    _driver_publish "c/trigger/dir" value
  else if topic =? "gpio_voltage" then
    _driver_publish "c/gpio/vref" value
  else if topic =? "name" then
    emit (ui_publish "settings/sources/1/name" (PVal value))
  else if existsb (String.eqb topic)
            ["info"; "state"; "state_req"; "out"; "enable";
             "sources"; "sources/1"; "sources/1/info"; "sources/1/name";
             "signals";
             "firmware_available"; "firmware_channel"] then
    ret tt
  else if startswith "signals/" topic then
    ret tt
  else
    _log warning "Unsupported topic %s".

(** *** Field updates *)

Definition set_thread (self : js220) (t : option nat) : js220 :=
  {| unique_id := unique_id self; topic_name := topic_name self; _info := _info self;
     _driver_device_open := _driver_device_open self; _thread := t; _quit := _quit self;
     _target_power_app := _target_power_app self; _queue := _queue self;
     _statistics_offsets := _statistics_offsets self; target_power := target_power self;
     current_range := current_range self; firmware_channel := firmware_channel self;
     settings_state := settings_state self; threads_created := threads_created self |}.

Definition set_quit (self : js220) (q : bool) : js220 :=
  {| unique_id := unique_id self; topic_name := topic_name self; _info := _info self;
     _driver_device_open := _driver_device_open self; _thread := _thread self; _quit := q;
     _target_power_app := _target_power_app self; _queue := _queue self;
     _statistics_offsets := _statistics_offsets self; target_power := target_power self;
     current_range := current_range self; firmware_channel := firmware_channel self;
     settings_state := settings_state self; threads_created := threads_created self |}.

Definition set_queue (self : js220) (q : list command) : js220 :=
  {| unique_id := unique_id self; topic_name := topic_name self; _info := _info self;
     _driver_device_open := _driver_device_open self; _thread := _thread self; _quit := _quit self;
     _target_power_app := _target_power_app self; _queue := q;
     _statistics_offsets := _statistics_offsets self; target_power := target_power self;
     current_range := current_range self; firmware_channel := firmware_channel self;
     settings_state := settings_state self; threads_created := threads_created self |}.

Definition set_statistics_offsets (self : js220) (o : option (list Z)) : js220 :=
  {| unique_id := unique_id self; topic_name := topic_name self; _info := _info self;
     _driver_device_open := _driver_device_open self; _thread := _thread self; _quit := _quit self;
     _target_power_app := _target_power_app self; _queue := _queue self;
     _statistics_offsets := o; target_power := target_power self;
     current_range := current_range self; firmware_channel := firmware_channel self;
     settings_state := settings_state self; threads_created := threads_created self |}.

Definition set_settings_state (self : js220) (st : state) : js220 :=
  {| unique_id := unique_id self; topic_name := topic_name self; _info := _info self;
     _driver_device_open := _driver_device_open self; _thread := _thread self; _quit := _quit self;
     _target_power_app := _target_power_app self; _queue := _queue self;
     _statistics_offsets := _statistics_offsets self; target_power := target_power self;
     current_range := current_range self; firmware_channel := firmware_channel self;
     settings_state := st; threads_created := threads_created self |}.

Definition set_threads_created (self : js220) (n : nat) : js220 :=
  {| unique_id := unique_id self; topic_name := topic_name self; _info := _info self;
     _driver_device_open := _driver_device_open self; _thread := _thread self; _quit := _quit self;
     _target_power_app := _target_power_app self; _queue := _queue self;
     _statistics_offsets := _statistics_offsets self; target_power := target_power self;
     current_range := current_range self; firmware_channel := firmware_channel self;
     settings_state := settings_state self; threads_created := n |}.

Definition set_target_power_app (self : js220) (b : bool) : js220 :=
  {| unique_id := unique_id self; topic_name := topic_name self; _info := _info self;
     _driver_device_open := _driver_device_open self; _thread := _thread self; _quit := _quit self;
     _target_power_app := b; _queue := _queue self;
     _statistics_offsets := _statistics_offsets self; target_power := target_power self;
     current_range := current_range self; firmware_channel := firmware_channel self;
     settings_state := settings_state self; threads_created := threads_created self |}.

(** *** [_run_cmd] *)

Definition _run_cmd (self : js220) (cmd : string) (args : option (string * pyval)) : M unit :=
  if cmd =? "settings" then
    match args with
    | Some (topic, value) => _run_cmd_settings self topic value
    | None => lift (Raised TypeError)     (* [*args] of [None] *)
    end
  else if cmd =? "current_range_update" then
    _current_range_update self
  else if cmd =? "close" then
    ret tt
  else
    _log warning "Unhandled cmd: %s".

(** *** [__init__]

    [unique_id] and the topic name come from the [Device] base class; the
    settings mirrored onto the object start at their schema defaults. *)
Definition __init__ (uid tname device_path : string) : outcome js220 :=
  match split "/" device_path with
  | [_; _model; serial] =>
      Returned
        {| unique_id := uid; topic_name := tname;
           _info := {| vendor := "Jetperch LLC"; model := "JS220"; version := None;
                       serial_number := serial |};
           _driver_device_open := false; _thread := None; _quit := false;
           _target_power_app := false; _queue := [];
           _statistics_offsets := None;
           target_power := true; current_range := -1; firmware_channel := "beta";
           settings_state := closed; threads_created := 0 |}
  | _ => Raised ValueError
  end.

(** *** [_signal_forward_factory]

    The closure reads [self._info] when it runs, so it takes the object as
    it is at that moment. *)
Definition _signal_forward_factory (signal_id utopic : string)
  : outcome (js220 -> string -> stream_value -> M unit) :=
  and_then (dict_get _SIGNALS signal_id) (fun signal_info =>
  let dtype_ := dtype signal_info in
  let field := name signal_info in
  let units_ := units signal_info in
  Returned (fun (self : js220) (dtopic : string) (value : stream_value) =>
    sid <- lift (floordiv (sample_id value) (decimate_factor value)) ;;
    sfreq <- lift (floordiv (sample_rate value) (decimate_factor value)) ;;
    emit (pubsub_publish utopic (PSignal
      {| fwd_source := _info self;
         fwd_sample_id := sid;
         fwd_sample_freq := sfreq;
         fwd_utc := utc value;
         fwd_field := field;
         fwd_data := data value;
         fwd_dtype := dtype_;
         fwd_units := units_;
         fwd_origin_sample_id := sample_id value;
         fwd_orig_sample_freq := sample_rate value;
         fwd_orig_decimate_factor := decimate_factor value |})))).

(** *** The command queue and the [settings/state] topic *)

(** [self._queue.put((cmd, args), block=False)] on an unbounded queue. *)
Definition _send_to_thread (self : js220) (cmd : string) (args : option (string * pyval)) : js220 :=
  set_queue self (_queue self ++ [(cmd, args)]).

(** [self._ui_publish('settings/state', name)]: the bus retains the
    option the name stands for. *)
Definition _ui_publish_state (self : js220) (st : state) : js220 * list effect :=
  (set_settings_state self st,
   [ui_publish "settings/state" (PVal (VStr (state_name st)))]).

(** [_on_target_power_app]. *)
Definition _on_target_power_app (self : js220) (value : pyval) : js220 :=
  _send_to_thread (set_target_power_app self (truthy value)) "current_range_update" None.

(** *** [_close_req] and [_open_req]

    [t.join()] returns once the worker has left [_run]; from then on that
    worker does nothing more, but what it published before can still
    reach the bus afterwards (see [worker_step]).  The queue is shown as
    the control thread wrote it: whether the worker took the 'close'
    command off it before it left is not modelled, and [_open_req]
    empties the queue before the next worker starts. *)
Definition _close_req (self : js220) : js220 * list effect :=
  let t := _thread self in
  let self := set_thread self None in
  match t with
  | Some w =>
      let (self, p1) := _ui_publish_state self closing in
      let self := _send_to_thread self "close" None in
      let self := set_quit self true in
      let (self, p2) := _ui_publish_state self closed in
      (self, [log info "closing"] ++ p1 ++ [thread_join w] ++ p2 ++ [log info "closed"])
  | None => (self, [])
  end.

Definition _open_req (self : js220) : js220 * list effect :=
  let (self, tr) :=
    if (match _thread self with Some _ => true | None => false end)
       && (state_value (settings_state self) =? 3)%Z
    then _close_req self else (self, []) in
  match _thread self with
  | None =>
      (* the loop around [self._queue.get(block=False)] empties the queue *)
      let self := set_queue self [] in
      let (self, p) := _ui_publish_state self opening in
      let self := set_quit self false in
      let w := threads_created self in
      let self := set_thread (set_threads_created self (S w)) (Some w) in
      (self, tr ++ [log info "open req start"] ++ p ++ [thread_start w; log info "open req done"])
  | Some _ => (self, tr)
  end.

(** [on_setting_state_req]. *)
Definition on_setting_state_req (self : js220) (value : pyval) : js220 * list effect :=
  if eq_int value 0 then _close_req self else _open_req self.













(** *** [_on_settings] *)

Definition _on_settings (self : js220) (topic : string) (value : pyval) : js220 * list effect :=
  match _thread self with
  | None => (self, [])
  | Some _ =>
      let t := (topic_name self ++ "/settings/")%string in
      if negb (startswith t topic) then
        if negb (topic =? take (String.length t - 1) t)
        then (self, [log warning "Invalid settings topic %s"])
        else (self, [])
      else
        let topic := drop (String.length t) topic in
        (_send_to_thread self "settings" (Some (topic, value)), [])
  end.

(** *** [_on_stats] and [on_action_accum_clear] *)

Definition _on_stats (self : js220) (topic : string) (value : statistics) : js220 * M unit :=
  match
    match _statistics_offsets self with
    | None =>
        and_then (list_last (accum_samples value)) (fun accum_sample_start =>
        Returned [accum_sample_start; charge value; energy value])
    | Some offsets => Returned offsets
    end
  with
  | Raised e => (self, lift (Raised e))
  | Returned offsets =>
      let self := set_statistics_offsets self (Some offsets) in
      match offsets with
      | [accum_sample_start; charge_; energy_] =>
          match accum_samples value with
          | [] => (self, lift (Raised IndexError))
          | _ :: rest =>
              (self,
               emit (ui_publish "events/statistics/!data" (PStatistics
                 {| accum_samples := accum_sample_start :: rest;
                    charge := charge value - charge_;
                    energy := energy value - energy_;
                    source := Some (unique_id self);
                    signals := signals value |})))
          end
      | _ => (self, lift (Raised ValueError))
      end
  end.

Definition on_action_accum_clear (self : js220) (topic : string) (value : option (list Z))
  : js220 * (string * option (list Z)) :=
  let prev_value := _statistics_offsets self in
  (set_statistics_offsets self value, (topic, prev_value)).

(** The driver delivering statistics messages one after the other; each
    callback's effects and result are kept apart. *)
Fixpoint deliver (self : js220) (values : list statistics) : js220 * list (M unit) :=
  match values with
  | [] => (self, [])
  | v :: vs =>
      let (self1, r) := _on_stats self "s/stats/value" v in
      let (self2, rs) := deliver self1 vs in
      (self2, r :: rs)
  end.

(** *** [_is_firmware_update_available] *)

(** A firmware segment of a release image, as far as the check reads it. *)
Record segment : Type := {
  seg_version : Z;
  seg_image : blob
}.

(** The [pyjoulescope_driver] functions the check calls: [release.release_get],
    [release.release_to_segments], the two subtype constants and
    [program.version_to_str]. *)
Class Release : Type := {
  release_get : string -> outcome blob;
  release_to_segments : blob -> outcome (list (Z * segment));
  SUBTYPE_CTRL_APP : Z;
  SUBTYPE_SENSOR_FPGA : Z;
  version_to_str : Z -> string
}.

(** [self._driver_query(topic)] on the open device. *)
Class Driver : Type := {
  _driver_query : string -> outcome Z
}.

Section Firmware.
Context {release : Release} {driver : Driver}.

(** The body of the [try]. *)
Definition release_segments (self : js220) : outcome (segment * segment) :=
  and_then (release_get (firmware_channel self)) (fun image =>
  and_then (release_to_segments image) (fun segments =>
  and_then (dict_get_int segments SUBTYPE_CTRL_APP) (fun ctrl_app =>
  and_then (dict_get_int segments SUBTYPE_SENSOR_FPGA) (fun fpga =>
  Returned (ctrl_app, fpga))))).

Definition _is_firmware_update_available (self : js220)
  : M (option (list (string * list string))) :=
  match release_segments self with
  | Raised _ =>
      _log info "firmware_update_available: Could not parse firmware image" ;;
      ret None
  | Returned (ctrl_app, fpga) =>
      ctrl_app_now <- lift (_driver_query "c/fw/version") ;;
      fpga_now <- lift (_driver_query "s/fpga/version") ;;
      if (ctrl_app_now >=? seg_version ctrl_app)%Z && (fpga_now >=? seg_version fpga)%Z then
        _log info "firmware_update_available %s: up to date" ;;
        ret None
      else
        let v := version_to_str in
        let rv := [ ("ctrl_app", [v ctrl_app_now; v (seg_version ctrl_app)]);
                    ("fpga", [v fpga_now; v (seg_version fpga)]) ] in
        _log info "firmware_update_available %s: %s" ;;
        ret (Some rv)
  end.

End Firmware.

End Js220.

(** ** The waveform time map *)

Module TimeMap.

Local Open Scope Q_scope.

(** Modelled from the spec: how a result of [TimeMap]
    ([joulescope_ui/widgets/waveform/time_map.py], of which only the test
    is at hand) is turned into the integer the spec types it as.  The
    spec gives int64 time and integer pixels and speaks of integer
    rounding without saying which; these are the ways Python has:
    leaving the float as it is, [math.floor], [math.ceil], [int],
    [floor(x + 0.5)] and [round] (ties to even). *)
Inductive rounding : Type :=
| unrounded
| to_floor
| to_ceiling
| to_zero
| half_up
| half_even.

(** Modelled from the spec: [round(q)], the nearest integer, a tie going
    to the even one. *)
Definition round_half_even (q : Q) : Z :=
  let f := Qfloor q in
  match Qcompare (q - inject_Z f) (1 # 2) with
  | Lt => f
  | Gt => (f + 1)%Z
  | Eq => if Z.even f then f else (f + 1)%Z
  end.

(** Modelled from the spec: a value after rounding in the way [m]. *)
Definition snap (m : rounding) (q : Q) : Q :=
  match m with
  | unrounded => q
  | to_floor => inject_Z (Qfloor q)
  | to_ceiling => inject_Z (Qceiling q)
  | to_zero => inject_Z (if Qle_bool 0 q then Qfloor q else Qceiling q)
  | half_up => inject_Z (Qfloor (q + (1 # 2)))
  | half_even => inject_Z (round_half_even q)
  end.




(** Modelled from the spec: the state of [TimeMap],
    [(trel_offset: int64, anchor_pixel: int, anchor_time: int64,
    pixels_per_unit_time: float)].  The scale, a binary64 float in the
    program, is the rational it denotes, and the product and the
    quotient with it are exact before they are rounded to an integer:
    the rounding of binary64 arithmetic itself is not modelled. *)
Record time_map : Type := {
  trel_offset : Z;
  anchor_pixel : Z;
  anchor_time : Z;
  pixels_per_time : Q
}.

(** Modelled from the spec: the freshly constructed [TimeMap()], the
    degenerate configuration [anchor_pixel=0, anchor_time=0, scale=1,
    trel_offset=0]. *)
Definition TimeMap : time_map :=
  {| trel_offset := 0; anchor_pixel := 0; anchor_time := 0; pixels_per_time := 1 |}.

(** Modelled from the spec: the [trel_offset] setter, independent of the
    anchor and the scale. *)
Definition set_trel_offset (tm : time_map) (offset : Z) : time_map :=
  {| trel_offset := offset; anchor_pixel := anchor_pixel tm;
     anchor_time := anchor_time tm; pixels_per_time := pixels_per_time tm |}.

(** Modelled from the spec: [update(anchor_pixel, anchor_time,
    pixels_per_time_unit)] replaces the anchor and the scale. *)
Definition update (tm : time_map) (pixel time : Z) (scale : Q) : time_map :=
  {| trel_offset := trel_offset tm; anchor_pixel := pixel;
     anchor_time := time; pixels_per_time := scale |}.

(** Modelled from the spec: [time64_to_pixel(t)], the affine map through
    the anchor with slope [scale]; the distance from the anchor pixel is
    rounded in the way [m]. *)
Definition time64_to_pixel (m : rounding) (tm : time_map) (t : Q) : Q :=
  inject_Z (anchor_pixel tm)
  + snap m ((t - inject_Z (anchor_time tm)) * pixels_per_time tm).

(** Modelled from the spec: [pixel_to_time64(p)], the affine map through
    the anchor with slope [1 / scale]; the distance from the anchor time
    is rounded in the way [m]. *)
Definition pixel_to_time64 (m : rounding) (tm : time_map) (p : Q) : Q :=
  inject_Z (anchor_time tm)
  + snap m ((p - inject_Z (anchor_pixel tm)) / pixels_per_time tm).

End TimeMap.

(** * Traces and example objects *)

Import Js220.
Local Open Scope js_scope.

(** ** Reading a trace *)

(** The register writes of a trace, in order. *)
Fixpoint driver_publishes (tr : list effect) : list (string * pyval) :=
  match tr with
  | [] => []
  | driver_publish t v :: tr' => (t, v) :: driver_publishes tr'
  | _ :: tr' => driver_publishes tr'
  end.

(** The warnings of a trace, in order. *)
Fixpoint warnings (tr : list effect) : list string :=
  match tr with
  | [] => []
  | log warning fmt :: tr' => fmt :: warnings tr'
  | _ :: tr' => warnings tr'
  end.

(** The publications on the application bus, in order. *)
Fixpoint bus_publishes (tr : list effect) : list (string * payload) :=
  match tr with
  | [] => []
  | ui_publish t v :: tr' => (t, v) :: bus_publishes tr'
  | pubsub_publish t v :: tr' => (t, v) :: bus_publishes tr'
  | _ :: tr' => bus_publishes tr'
  end.

(** A device as [__init__] leaves it, for the examples. *)
Definition js220_000123 : js220 :=
  {| unique_id := "JS220-000123"; topic_name := "registry/JS220-000123";
     _info := {| vendor := "Jetperch LLC"; model := "JS220"; version := None;
                 serial_number := "000123" |};
     _driver_device_open := false; _thread := None; _quit := false;
     _target_power_app := false; _queue := [];
     _statistics_offsets := None;
     target_power := true; current_range := -1; firmware_channel := "beta";
     settings_state := closed; threads_created := 0 |}.

(** The same device with the application-level target power switched on
    and a manual current range selected. *)
Definition js220_manual : js220 :=
  {| unique_id := "JS220-000123"; topic_name := "registry/JS220-000123";
     _info := _info js220_000123;
     _driver_device_open := true; _thread := Some 0%nat; _quit := false;
     _target_power_app := true; _queue := [];
     _statistics_offsets := None;
     target_power := true; current_range := 132; firmware_channel := "beta";
     settings_state := open; threads_created := 1 |}.

(** A stream message of the current signal at the 1 MHz output rate. *)
Definition stream_1001 : stream_value :=
  {| sample_id := 1001; sample_rate := 2000000; decimate_factor := 2;
     utc := [0]; data := [1; 2; 3] |}.

(** Two statistics messages as the driver delivers them: the sample range
    [start, end] and the raw accumulators. *)
Definition stats_a : statistics :=
  {| accum_samples := [0; 500000]; charge := 5; energy := 7; source := None;
     signals := [] |}.

Definition stats_b : statistics :=
  {| accum_samples := [0; 1000000]; charge := 8; energy := 11; source := None;
     signals := [] |}.



(** ** Vocabulary of the statements *)

(** The topics of the branches that do something. *)
Definition operational (topic : string) : bool :=
  endswith "/enable" topic || startswith "out/" topic
  || existsb (String.eqb topic)
       ["signal_frequency"; "statistics_frequency"; "target_power"; "current_range";
        "current_range_limits"; "voltage_range"; "trigger_dir"; "gpio_voltage"; "name"].

(** The topics of the two [pass] branches. *)
Definition structural (topic : string) : bool :=
  existsb (String.eqb topic)
    ["info"; "state"; "state_req"; "out"; "enable";
     "sources"; "sources/1"; "sources/1/info"; "sources/1/name";
     "signals"; "firmware_available"; "firmware_channel"]
  || startswith "signals/" topic.

(** What a republished message looks like against a given baseline. *)
Definition normalized (self : js220) (start c e : Z) (value : statistics) (r : M unit) : Prop :=
  exists out,
    r = ([ui_publish "events/statistics/!data" (PStatistics out)], Returned tt) /\
    charge out = charge value - c /\
    energy out = energy value - e /\
    accum_samples out = start :: tl (accum_samples value) /\
    source out = Some (unique_id self) /\
    signals out = signals value.




(** * The rest of the device wrapper *)

From Stdlib Require Import DecimalZ DecimalPos.

(** ** Version strings *)

(** [str(z)] of an int. *)
Definition str (z : Z) : string := NilZero.string_of_int (Z.to_int z).

(** [sep.join(parts)]. *)
Fixpoint join (sep : string) (parts : list string) : string :=
  match parts with
  | [] => EmptyString
  | p :: rest =>
      match rest with
      | [] => p
      | _ :: _ => (p ++ sep ++ join sep rest)%string
      end
  end.

(** [_version_u32_to_str]. *)
Definition _version_u32_to_str (v : Z) : string :=
  let major := Z.land (Z.shiftr v 24) 255 in
  let minor := Z.land (Z.shiftr v 16) 255 in
  let patch := Z.land v 65535 in
  join "." (map str [major; minor; patch]).

(** ** The settings schema *)

(** An entry of a [SETTINGS] dict: ['dtype'], ['default'], ['options'] as
    pairs of value and label, and ['flags'].  The translated ['brief'] and
    ['detail'] texts are left out, except where [_populate] copies a
    signal's ['brief'] into a default. *)
Record setting : Type := {
  s_dtype : string;
  s_default : payload;
  s_options : list (pyval * string);
  s_flags : list string
}.

(** [d[key] = value]: replaces the value of a present key in place,
    appends a new key at the end. *)
Fixpoint dict_set {V : Type} (d : list (string * V)) (key : string) (value : V)
  : list (string * V) :=
  match d with
  | [] => [(key, value)]
  | (k, v) :: d' =>
      if String.eqb k key then (k, value) :: d' else (k, v) :: dict_set d' key value
  end.

Definition keys {V : Type} (d : list (string * V)) : list string := map fst d.

Definition int_options (l : list (Z * string)) : list (pyval * string) :=
  map (fun o => (VInt (fst o), snd o)) l.

(** [_SETTINGS_CLASS] as written, before [_populate] runs. *)
Definition _SETTINGS_CLASS_static : list (string * setting) :=
  [ ("signal_frequency",
     {| s_dtype := "int"; s_default := PVal (VInt 1000000);
        s_options := int_options
          [ (1000000, "1 MHz"); (500000, "500 kHz"); (200000, "200 kHz");
            (100000, "100 kHz"); (50000, "50 kHz"); (20000, "20 kHz");
            (10000, "10 kHz"); (5000, "5 kHz"); (2000, "2 kHz"); (1000, "1 kHz");
            (500, "500 Hz"); (200, "200 Hz"); (100, "100 Hz"); (50, "50 Hz");
            (20, "20 Hz"); (10, "10 Hz"); (5, "5 Hz"); (2, "2 Hz"); (1, "1 Hz") ];
        s_flags := [] |});
    ("statistics_frequency",
     {| s_dtype := "int"; s_default := PVal (VInt 2);
        s_options := int_options
          [ (100, "100 Hz"); (50, "50 Hz"); (20, "20 Hz"); (10, "10 Hz");
            (5, "5 Hz"); (2, "2 Hz"); (1, "1 Hz") ];
        s_flags := [] |});
    ("target_power",
     {| s_dtype := "bool"; s_default := PVal (VBool true); s_options := [];
        s_flags := ["hide"] |});
    ("current_range",
     {| s_dtype := "int"; s_default := PVal (VInt (-1));
        s_options := int_options
          [ (-1, "auto"); (129, "10 A"); (130, "180 mA"); (132, "18 mA");
            (136, "1.8 mA"); (144, "180 µA"); (160, "18 µA") ];
        s_flags := [] |});
    ("current_range_limits",
     {| s_dtype := "obj"; s_default := PVal (VList [VInt 0; VInt 5]); s_options := [];
        s_flags := [] |});
    ("voltage_range",
     {| s_dtype := "int"; s_default := PVal (VInt (-1));
        s_options := int_options [ (-1, "auto"); (0, "15 V"); (1, "2 V") ];
        s_flags := [] |});
    ("trigger_dir",
     {| s_dtype := "int"; s_default := PVal (VInt 0);
        s_options := int_options [ (0, "input"); (1, "output") ];
        s_flags := [] |});
    ("gpio_voltage",
     {| s_dtype := "int"; s_default := PVal (VInt 0);
        s_options := int_options [ (0, "Vref"); (1, "3.3 V") ];
        s_flags := [] |});
    ("out/0",
     {| s_dtype := "bool"; s_default := PVal (VBool false); s_options := [];
        s_flags := [] |});
    ("out/1",
     {| s_dtype := "bool"; s_default := PVal (VBool false); s_options := [];
        s_flags := [] |});
    ("out/T",
     {| s_dtype := "bool"; s_default := PVal (VBool false); s_options := [];
        s_flags := [] |});
    ("firmware_channel",
     {| s_dtype := "str"; s_default := PVal (VStr "beta");
        s_options := [ (VStr "alpha", "alpha"); (VStr "beta", "beta");
                       (VStr "stable", "stable") ];
        s_flags := [] |});
    ("firmware_available",
     {| s_dtype := "obj"; s_default := PVal VNone; s_options := [];
        s_flags := ["hide"; "tmp"; "ro"] |}) ].

(** The ['brief'] entries of [_SIGNALS], in the language of the source. *)
Definition _SIGNALS_brief : list (string * string) :=
  [ ("i", "Current"); ("v", "Voltage"); ("p", "Power"); ("r", "Current Range");
    ("0", "GPI 0"); ("1", "GPI 1"); ("2", "GPI 2"); ("3", "GPI 3");
    ("T", "Trigger input") ].

Definition signal_brief (signal_id : string) : string :=
  match dict_get _SIGNALS_brief signal_id with
  | Returned b => b
  | Raised _ => EmptyString
  end.

(** [_populate]: what the loop over [_SIGNALS.items()] adds to the
    settings and to the events, starting from the given dicts. *)
Fixpoint _populate_from (signals : list (string * signal_info))
  (settings : list (string * setting)) (events : list string)
  : list (string * setting) * list string :=
  match signals with
  | [] => (settings, events)
  | (signal_id, value) :: rest =>
      let settings :=
        dict_set settings ("signals/" ++ signal_id ++ "/name")%string
          {| s_dtype := "str"; s_default := PVal (VStr (signal_brief signal_id));
             s_options := []; s_flags := ["hide"] |} in
      let settings :=
        dict_set settings ("signals/" ++ signal_id ++ "/enable")%string
          {| s_dtype := "bool"; s_default := PVal (VBool (default value));
             s_options := []; s_flags := ["hide"] |} in
      let events :=
        if existsb (String.eqb ("signals/" ++ signal_id ++ "/!data")%string) events
        then events
        else events ++ [("signals/" ++ signal_id ++ "/!data")%string] in
      _populate_from rest settings events
  end.

Definition _populate : list (string * setting) * list string :=
  _populate_from _SIGNALS _SETTINGS_CLASS_static ["statistics/!data"].

(** [_SETTINGS_CLASS] and [EVENTS] once the module is loaded. *)
Definition _SETTINGS_CLASS : list (string * setting) := fst _populate.
Definition EVENTS : list string := snd _populate.

(** [_SETTINGS_OBJ_ONLY], with the defaults [__init__] writes into it:
    the device name and [self._info]. *)
Definition _SETTINGS_OBJ_ONLY (name : string) (info : device_info)
  : list (string * setting) :=
  [ ("name",
     {| s_dtype := "str"; s_default := PVal (VStr name); s_options := [];
        s_flags := [] |});
    ("info",
     {| s_dtype := "obj"; s_default := PInfo info; s_options := [];
        s_flags := ["ro"; "hide"; "skip_undo"] |});
    ("state",
     {| s_dtype := "int"; s_default := PVal (VInt 0);
        s_options := int_options
          [ (0, "closed"); (1, "opening"); (2, "open"); (3, "closing") ];
        s_flags := ["ro"; "hide"; "skip_undo"] |});
    ("state_req",
     {| s_dtype := "int"; s_default := PVal (VInt 1);
        s_options := int_options [ (0, "closed"); (1, "open") ];
        s_flags := ["ro"; "hide"] |});
    ("sources/1/name",
     {| s_dtype := "str"; s_default := PVal (VStr name); s_options := [];
        s_flags := ["ro"; "hide"; "skip_undo"] |});
    ("sources/1/info",
     {| s_dtype := "obj"; s_default := PInfo info; s_options := [];
        s_flags := ["ro"; "hide"; "skip_undo"] |}) ].

(** [self.SETTINGS] as [__init__] builds it: a copy of [_SETTINGS_CLASS]
    with the entries of [_SETTINGS_OBJ_ONLY] set one by one. *)
Definition instance_settings (name : string) (info : device_info)
  : list (string * setting) :=
  fold_left (fun d kv => dict_set d (fst kv) (snd kv))
    (_SETTINGS_OBJ_ONLY name info) _SETTINGS_CLASS.

(** [signal_subtopics]. *)
Definition signal_subtopics (signal_id topic_type : string) : outcome string :=
  and_then (dict_get _SIGNALS signal_id) (fun s =>
  let topics_ := topics s in
  if topic_type =? "ctrl" then Returned (fst topics_)
  else if topic_type =? "data" then Returned (snd topics_)
  else Raised ValueError).

(** ** Calls to the outside beyond register writes and publications *)

(** The callbacks the wrapper hands to the driver and to the bus. *)
Inductive callback : Type :=
| cb_on_stats                                  (* self._on_stats_fn *)
| cb_on_settings                               (* self._on_settings_fn *)
| cb_on_target_power_app                       (* self._on_target_power_app_fn *)
| cb_signal_forward (signal_id utopic : string). (* _signal_forward_factory(signal_id, utopic) *)

(** What the worker and the registration do to the outside, in program
    order: the effects of the handlers, and the calls that the handlers
    never make.  A call is recorded when it is made, whether or not it
    then raises. *)
Inductive io : Type :=
| io_effect (e : effect)
| io_pubsub_subscribe (topic : string) (fn : callback) (flags : list string)
| io_pubsub_unsubscribe (topic : string) (fn : callback)
| io_topic_add (topic : string)
| io_ui_subscribe (subtopic : string) (fn : callback) (flags : list string)
| io_ui_unsubscribe (subtopic : string) (fn : callback)
| io_driver_open (mode : string)               (* self._driver.open(self._path, mode) *)
| io_driver_close                              (* self._driver.close(self._path) *)
| io_driver_publish_wait (topic : string) (value : pyval)
                                               (* _driver_publish without timeout=0 *)
| io_driver_subscribe (topic : string) (flags : pyval) (fn : callback)
| io_driver_unsubscribe (topic : string) (fn : callback)
| io_capabilities_append                       (* CAPABILITIES_OBJECT_OPEN *)
| io_capabilities_remove
| io_set_firmware_available (value : option (list (string * list string))).

(** [get_topic_name] applied to a unique id, from [joulescope_ui]. *)
Class Registry : Type := {
  get_topic_name : string -> string
}.

(** How the driver answers the calls that wait for it.  A register write
    with [timeout=0] does not wait and is an [effect]; [open], [close],
    a write without [timeout=0], [subscribe] and [unsubscribe] return or
    raise as the transport decides. *)
Class Transport : Type := {
  open_result : string -> outcome unit;
  close_result : outcome unit;
  publish_wait_result : string -> pyval -> outcome unit;
  subscribe_result : string -> outcome unit;
  unsubscribe_result : string -> outcome unit
}.

(** A method that reads and writes the object, calls out, and returns
    or raises; what it wrote before raising stays written. *)
Definition W (A : Type) : Type := js220 -> js220 * (list io * outcome A).

Definition w_ret {A : Type} (a : A) : W A := fun s => (s, ([], Returned a)).

Definition w_bind {A B : Type} (m : W A) (k : A -> W B) : W B :=
  fun s =>
    match m s with
    | (s1, (tr1, Returned a)) =>
        match k a s1 with
        | (s2, (tr2, r)) => (s2, (tr1 ++ tr2, r))
        end
    | (s1, (tr1, Raised e)) => (s1, (tr1, Raised e))
    end.

Definition w_emit (e : io) : W unit := fun s => (s, ([e], Returned tt)).

Definition w_lift {A : Type} (o : outcome A) : W A := fun s => (s, ([], o)).

Definition w_get : W js220 := fun s => (s, ([], Returned s)).

Definition w_modify (f : js220 -> js220) : W unit := fun s => (f s, ([], Returned tt)).

(** A call recorded as [e] whose result the transport decides. *)
Definition w_call (e : io) (result : outcome unit) : W unit :=
  fun s => (s, ([e], result)).

(** A method of the handlers' kind, run on the object as it is. *)
Definition w_do {A : Type} (m : js220 -> M A) : W A :=
  fun s => let (tr, r) := m s in (s, (map io_effect tr, r)).

(** [try: m except Exception: ...]: the result of [m], raised or not, is
    handed to what follows. *)
Definition w_try {A : Type} (m : W A) : W (outcome A) :=
  fun s => match m s with (s1, (tr, r)) => (s1, (tr, Returned r)) end.

Definition w_log (l : level) (fmt : string) : W unit := w_emit (io_effect (log l fmt)).

(** [self._ui_publish('settings/state', name)]. *)
Definition w_publish_state (st : state) : W unit :=
  fun s => let (s1, tr) := _ui_publish_state s st in (s1, (map io_effect tr, Returned tt)).

Declare Scope w_scope.
Delimit Scope w_scope with w.
Notation "x <- m ;; k" := (w_bind m (fun x => k))
  (at level 61, m at next level, right associativity) : w_scope.
Notation "m ;; k" := (w_bind m (fun _ => k))
  (at level 61, right associativity) : w_scope.

Definition set_info (self : js220) (i : device_info) : js220 :=
  {| unique_id := unique_id self; topic_name := topic_name self; _info := i;
     _driver_device_open := _driver_device_open self; _thread := _thread self; _quit := _quit self;
     _target_power_app := _target_power_app self; _queue := _queue self;
     _statistics_offsets := _statistics_offsets self; target_power := target_power self;
     current_range := current_range self; firmware_channel := firmware_channel self;
     settings_state := settings_state self; threads_created := threads_created self |}.

Definition set_driver_device_open (self : js220) (b : bool) : js220 :=
  {| unique_id := unique_id self; topic_name := topic_name self; _info := _info self;
     _driver_device_open := b; _thread := _thread self; _quit := _quit self;
     _target_power_app := _target_power_app self; _queue := _queue self;
     _statistics_offsets := _statistics_offsets self; target_power := target_power self;
     current_range := current_range self; firmware_channel := firmware_channel self;
     settings_state := settings_state self; threads_created := threads_created self |}.

Definition set_target_power (self : js220) (b : bool) : js220 :=
  {| unique_id := unique_id self; topic_name := topic_name self; _info := _info self;
     _driver_device_open := _driver_device_open self; _thread := _thread self; _quit := _quit self;
     _target_power_app := _target_power_app self; _queue := _queue self;
     _statistics_offsets := _statistics_offsets self; target_power := b;
     current_range := current_range self; firmware_channel := firmware_channel self;
     settings_state := settings_state self; threads_created := threads_created self |}.

Definition set_current_range (self : js220) (z : Z) : js220 :=
  {| unique_id := unique_id self; topic_name := topic_name self; _info := _info self;
     _driver_device_open := _driver_device_open self; _thread := _thread self; _quit := _quit self;
     _target_power_app := _target_power_app self; _queue := _queue self;
     _statistics_offsets := _statistics_offsets self; target_power := target_power self;
     current_range := z; firmware_channel := firmware_channel self;
     settings_state := settings_state self; threads_created := threads_created self |}.

(** [info['version'] = v]. *)
Definition with_version (i : device_info) (v : string * string * string) : device_info :=
  {| vendor := vendor i; model := model i; version := Some v;
     serial_number := serial_number i |}.

Section Worker.
Context {registry : Registry} {transport : Transport} {release : Release} {driver : Driver}.

(** ** [on_pubsub_register] and [_signal_forward] *)


(** A [for] loop over the items of a dict. *)
Fixpoint w_for {A : Type} (items : list A) (body : A -> W unit) : W unit :=
  match items with
  | [] => w_ret tt
  | x :: rest => (body x ;; w_for rest body)%w
  end.



(** ** [_open] *)

(** The body of the second [try] of [_open]. *)
Definition _open_config : W unit :=
  (hw <- w_lift (_driver_query "c/hw/version") ;;
   fw <- w_lift (_driver_query "c/fw/version") ;;
   fpga <- w_lift (_driver_query "s/fpga/version") ;;
   w_modify (fun self =>
     set_info self (with_version (_info self)
       (str (Z.shiftr hw 24), _version_u32_to_str fw, _version_u32_to_str fpga))) ;;
   self <- w_get ;;
   w_emit (io_effect (ui_publish "settings/info" (PInfo (_info self)))) ;;
   w_emit (io_effect (driver_publish "s/stats/ctrl" (VInt 1))) ;;
   w_call (io_driver_subscribe "s/stats/value" (VStr "pub") cb_on_stats)
     (subscribe_result "s/stats/value") ;;
   w_call (io_driver_publish_wait "s/dbg/mode" (VStr "fpga_dev"))
     (publish_wait_result "s/dbg/mode" (VStr "fpga_dev")) ;;
   w_emit (io_ui_subscribe "settings" cb_on_settings ["pub"; "retain"]))%w.

Definition _open : W Z :=
  (w_log info "open start" ;;
   r <- w_try (w_call (io_driver_open "restore") (open_result "restore")) ;;
   match r with
   | Raised _ =>
       w_log warning "driver open failed" ;;
       w_publish_state closing ;;
       w_ret 1
   | Returned _ =>
       r <- w_try _open_config ;;
       match r with
       | Raised _ =>
           w_log exception "driver config failed" ;;
           w_publish_state closing ;;
           w_ret 1
       | Returned _ =>
           w_modify (fun self => set_driver_device_open self true) ;;
           w_log info "open %s done" ;;
           w_ret 0
       end
   end)%w.

(** ** [_close] *)

(** The body of the first [try] of [_close]. *)
Definition _close_cleanup : W unit :=
  (w_for _SIGNALS (fun t =>
     w_emit (io_effect (driver_publish (fst (topics (snd t))) (VInt 0)))) ;;
   w_call (io_driver_publish_wait "s/stats/ctrl" (VInt 0))
     (publish_wait_result "s/stats/ctrl" (VInt 0)))%w.

Definition _close : W unit :=
  (self <- w_get ;;
   if negb (_driver_device_open self) then
     w_log info "close %s when already closed"
   else
     w_log info "close %s start" ;;
     w_emit (io_ui_unsubscribe "settings" cb_on_settings) ;;
     w_publish_state closing ;;
     w_call (io_driver_unsubscribe "s/stats/value" cb_on_stats)
       (unsubscribe_result "s/stats/value") ;;
     r <- w_try _close_cleanup ;;
     match r with
     | Raised _ => w_log info "Exception during close cleanup: %s"
     | Returned _ => w_ret tt
     end ;;
     r <- w_try (w_call io_driver_close close_result) ;;
     match r with
     | Raised _ => w_log info "Exception during driver close: %s"
     | Returned _ => w_ret tt
     end ;;
     w_modify (fun self => set_driver_device_open self false) ;;
     w_log info "close %s done")%w.

(** ** [_run] *)

(** What the control thread writes to the object while the worker runs:
    the quit flag ([_close_req]), the application-level target power
    ([_on_target_power_app]) and the two settings [_current_range_update]
    reads. *)
Inductive control_write : Type :=
| write_quit
| write_target_power_app (b : bool)
| write_target_power (b : bool)
| write_current_range (z : Z).

Definition apply_write (self : js220) (u : control_write) : js220 :=
  match u with
  | write_quit => set_quit self true
  | write_target_power_app b => set_target_power_app self b
  | write_target_power b => set_target_power self b
  | write_current_range z => set_current_range self z
  end.

(** What the worker meets, one after the other, while it serves: a
    [get] that times out, a [get] that returns a command, or a write of
    the control thread. *)
Inductive tick : Type :=
| tick_empty
| tick_cmd (c : command)
| tick_write (u : control_write).

(** The [while not self._quit] loop, over what the worker meets.  [None]
    stands for a worker that still waits when the ticks are used up. *)
Fixpoint serve (feed : list tick) : W (option unit) :=
  fun self =>
    if _quit self then (self, ([], Returned (Some tt)))
    else
      match feed with
      | [] => (self, ([], Returned None))
      | tick_empty :: feed' => serve feed' self
      | tick_cmd (cmd, args) :: feed' =>
          if cmd =? "close" then (self, ([], Returned (Some tt)))
          else (w_do (fun s => _run_cmd s cmd args) ;; serve feed')%w self
      | tick_write u :: feed' => serve feed' (apply_write self u)
      end.

(** [_run] from its loop to its end. *)
Definition _run_loop (feed : list tick) : W (option Z) :=
  (served <- serve feed ;;
   match served with
   | None => w_ret None
   | Some _ =>
       _close ;;
       w_emit io_capabilities_remove ;;
       w_log info "thread stop" ;;
       w_ret (Some 0)
   end)%w.

Definition _run (feed : list tick) : W (option Z) :=
  (w_log info "thread start" ;;
   r <- _open ;;
   if negb (r =? 0)%Z then
     w_log info "thread exit due to open fail" ;;
     w_ret (Some 1)
   else
     w_publish_state open ;;
     w_log info "thread open complete" ;;
     fa <- w_do _is_firmware_update_available ;;
     w_emit (io_set_firmware_available fa) ;;
     match fa with
     | Some _ =>
         w_log info "firmware_update: start by reset to update1" ;;
         w_call (io_driver_publish_wait "h/!reset" (VStr "update1"))
           (publish_wait_result "h/!reset" (VStr "update1")) ;;
         w_modify (fun self => set_quit self true)
     | None => w_emit io_capabilities_append
     end ;;
     _run_loop feed)%w.

End Worker.

(** ** [on_action_finalize] *)

Definition on_action_finalize (self : js220) : js220 * list effect :=
  let (self, tr) := _close_req self in
  (self, log info "finalize" :: tr).

(** ** The device control widget, as far as it drives the device *)

Section Widget.
Context {registry : Registry}.

(** [Js220CtrlWidget._reset_to_defaults]: the publications, in order.
    [_DEVICE_SETTINGS] is the [SETTINGS] dict of the device instance. *)
Definition _reset_to_defaults (unique_id_ : string)
  (_DEVICE_SETTINGS : list (string * setting)) : list (string * payload) :=
  let topic_base := (get_topic_name unique_id_ ++ "/settings")%string in
  map (fun name => ((topic_base ++ "/" ++ name)%string, PVal (VBool false)))
    (filter (endswith "/enable") (keys _DEVICE_SETTINGS))
  ++ [((topic_base ++ "/state_req")%string, PVal (VInt 0))]
  ++ map (fun kv =>
            ((topic_base ++ "/" ++ fst kv)%string,
             if fst kv =? "name" then PVal (VStr unique_id_) else s_default (snd kv)))
       _DEVICE_SETTINGS.

(** The signals [_add_signal_buttons] makes a button for, in order. *)
Fixpoint signal_buttons (names : list string) : outcome (list string) :=
  match names with
  | [] => Returned []
  | name :: rest =>
      if negb (endswith "/enable" name) then signal_buttons rest
      else
        and_then (list_get (split "/" name) 1) (fun signal =>
        and_then (signal_buttons rest) (fun signals =>
        Returned (signal :: signals)))
  end.

(** What the button of [signal] publishes when toggled. *)
Definition signal_button_toggled (unique_id_ signal : string) (checked : bool)
  : string * pyval :=
  ((get_topic_name unique_id_ ++ "/settings/signals/" ++ signal ++ "/enable")%string,
   VBool checked).

(** The outputs [_add_gpo] makes a button for, in order. *)
Definition gpo_buttons (names : list string) : list string :=
  map (drop 4) (filter (startswith "out/") names).

(** What the button of the output [signal] publishes when toggled. *)
Definition gpo_button_toggled (unique_id_ signal : string) (checked : bool)
  : string * pyval :=
  ((get_topic_name unique_id_ ++ "/settings/out/" ++ signal)%string, VBool checked).

End Widget.

(** ** Vocabulary of the further statements *)

(** The character [c] occurs in [s]. *)
Fixpoint has_char (c : ascii) (s : string) : bool :=
  match s with
  | EmptyString => false
  | String x s' => Ascii.eqb x c || has_char c s'
  end.

(** An unsigned 32-bit value, as the version registers hold. *)
Definition u32 (v : Z) : Prop := 0 <= v < 4294967296.

(** The registers [_run_cmd_settings] and [_current_range_update] write. *)
Definition settings_registers : list string :=
  map (fun s => fst (topics (snd s))) _SIGNALS
  ++ [ "s/gpo/+/!set"; "s/gpo/+/!clr"; "h/fs"; "s/stats/scnt";
       "s/i/range/mode"; "s/i/range/select"; "s/i/range/min"; "s/i/range/max";
       "s/v/range/mode"; "s/v/range/select"; "c/trigger/dir"; "c/gpio/vref" ].

(** [min(5, max(0, z))]. *)
Definition clamp_0_5 (z : Z) : Z := Z.min 5 (Z.max 0 z).

(** ** Example collaborators *)

(** The topic name of a unique id, as the registry forms it. *)
Definition registry_topics : Registry :=
  {| get_topic_name := fun unique_id_ => ("registry/" ++ unique_id_)%string |}.

(** A transport on which every call succeeds. *)
Definition transport_ok : Transport :=
  {| open_result := fun _ => Returned tt;
     close_result := Returned tt;
     publish_wait_result := fun _ _ => Returned tt;
     subscribe_result := fun _ => Returned tt;
     unsubscribe_result := fun _ => Returned tt |}.

(** A transport whose device is gone: [open] raises. *)
Definition transport_absent : Transport :=
  {| open_result := fun _ => Raised (Exception "open");
     close_result := Raised (Exception "close");
     publish_wait_result := fun _ _ => Raised (Exception "publish");
     subscribe_result := fun _ => Raised (Exception "subscribe");
     unsubscribe_result := fun _ => Raised (Exception "unsubscribe") |}.

(** A transport that opens but loses the device afterwards: writes that
    wait and [close] raise. *)
Definition transport_lost : Transport :=
  {| open_result := fun _ => Returned tt;
     close_result := Raised (Exception "close");
     publish_wait_result := fun _ _ => Raised (Exception "publish");
     subscribe_result := fun _ => Returned tt;
     unsubscribe_result := fun _ => Returned tt |}.

(** A release no newer than what [driver_1_1_0] runs. *)
Definition release_1_0_0 : Release :=
  {| release_get := fun _ => Returned [1];
     release_to_segments := fun _ =>
       Returned [ (3, {| seg_version := 16777216; seg_image := [] |});
                  (4, {| seg_version := 16777216; seg_image := [] |}) ];
     SUBTYPE_CTRL_APP := 3;
     SUBTYPE_SENSOR_FPGA := 4;
     version_to_str := _version_u32_to_str |}.

(** The device [js220_manual] as its worker finds it when it starts. *)
Definition js220_starting : js220 :=
  set_driver_device_open (set_settings_state js220_manual opening) false.

(** A driver that answers the three version queries: hardware 2,
    control application 1.1.0, sensor FPGA 1.0.0. *)
Definition driver_hw2 : Driver :=
  {| _driver_query := fun topic =>
       if topic =? "c/hw/version" then Returned 33554432
       else if topic =? "c/fw/version" then Returned 16842752
       else if topic =? "s/fpga/version" then Returned 16777216
       else Raised (Exception "query") |}.

(** ** Reading a worker's trace *)

(** The handlers' effects within a trace. *)
Fixpoint effects_of (tr : list io) : list effect :=
  match tr with
  | [] => []
  | io_effect e :: tr' => e :: effects_of tr'
  | _ :: tr' => effects_of tr'
  end.

Definition is_driver_open (e : io) : bool :=
  match e with io_driver_open _ => true | _ => false end.

Definition is_driver_close (e : io) : bool :=
  match e with io_driver_close => true | _ => false end.


Definition is_capabilities_remove (e : io) : bool :=
  match e with io_capabilities_remove => true | _ => false end.


(** How often a kind of call occurs in a trace. *)
Definition count_io (p : io -> bool) (tr : list io) : nat :=
  List.length (filter p tr).

(** The commands among the ticks, in order. *)
Fixpoint commands_of (feed : list tick) : list command :=
  match feed with
  | [] => []
  | tick_cmd c :: feed' => c :: commands_of feed'
  | _ :: feed' => commands_of feed'
  end.

(** Ticks that neither end the loop nor write to the object: timeouts
    and commands other than 'close'. *)
Fixpoint quiet (feed : list tick) : bool :=
  match feed with
  | [] => true
  | tick_empty :: feed' => quiet feed'
  | tick_cmd (cmd, _) :: feed' => negb (cmd =? "close") && quiet feed'
  | tick_write _ :: _ => false
  end.

(** What running the commands one after the other on [self] does. *)
Definition run_commands (self : js220) (cmds : list command) : list io :=
  List.concat (map (fun c => map io_effect (fst (_run_cmd self (fst c) (snd c)))) cmds).

Definition is_effect (e : io) : bool :=
  match e with io_effect _ => true | _ => false end.

(** * Properties *)

Example init_js220_000123 :
  __init__ "JS220-000123" "registry/JS220-000123" "u/js220/000123" = Returned js220_000123.
Proof. reflexivity. Qed.

(** ** Current-range policy *)

(** C2: [_current_range_update] writes mode 'auto' when both power flags
    are set and the range is the auto sentinel -1; writes the configured
    range to 's/i/range/select' and then mode 'manual' when both flags are
    set and the range is not -1; and writes mode 'off', whatever the
    range, when the two flags are not both set.  It writes nothing else
    and returns normally. *)
Theorem current_range_update_policy (self : js220) :
  snd (_current_range_update self) = Returned tt /\
  (_target_power_app self = true -> target_power self = true ->
   current_range self = -1 ->
   driver_publishes (fst (_current_range_update self))
   = [("s/i/range/mode", VStr "auto")]) /\
  (_target_power_app self = true -> target_power self = true ->
   current_range self <> -1 ->
   driver_publishes (fst (_current_range_update self))
   = [("s/i/range/select", VInt (current_range self));
      ("s/i/range/mode", VStr "manual")]) /\
  (_target_power_app self && target_power self = false ->
   driver_publishes (fst (_current_range_update self))
   = [("s/i/range/mode", VStr "off")]).
Proof.
  unfold _current_range_update.
  destruct (_target_power_app self), (target_power self); cbn [andb];
    destruct (Z.eqb_spec (current_range self) (-1)) as [E | E];
    repeat split; intros; try discriminate; try congruence; reflexivity.
Qed.

Lemma current_range_update_policy_witness :
  driver_publishes (fst (_current_range_update js220_manual))
  = [("s/i/range/select", VInt 132); ("s/i/range/mode", VStr "manual")].
Proof.
  apply (proj1 (proj2 (proj2 (current_range_update_policy js220_manual))));
    [reflexivity | reflexivity | discriminate].
Defined.

(** The handler re-evaluates the policy on either of the two settings. *)
Lemma settings_current_range (self : js220) (value : pyval) :
  _run_cmd_settings self "current_range" value
  = (_log info "setting(%s): %s <= %s" ;; _current_range_update self) /\
  _run_cmd_settings self "target_power" value
  = (_log info "setting(%s): %s <= %s" ;; _current_range_update self).
Proof. split; reflexivity. Qed.

(** A change of the application-level target power queues a command
    that makes the worker re-evaluate the policy with the new flag. *)
Lemma target_power_app_update (self : js220) (value : pyval) :
  let self' := _on_target_power_app self value in
  _queue self' = _queue self ++ [("current_range_update", None)] /\
  _target_power_app self' = truthy value /\
  _run_cmd self' "current_range_update" None = _current_range_update self'.
Proof. repeat split; reflexivity. Qed.

(** ** Frequency settings *)

(** C5 (as the code has it): a nonzero integer [statistics_frequency] is
    turned into the decimation count floor(1,000,000 / frequency), written
    to 's/stats/scnt' and nowhere else; at 2 Hz that is 500,000.  An
    integer [signal_frequency] is written to 'h/fs' as it is, undivided. *)
Theorem frequency_settings (self : js220) (f : Z) :
  (f <> 0 ->
   snd (_run_cmd_settings self "statistics_frequency" (VInt f)) = Returned tt /\
   driver_publishes (fst (_run_cmd_settings self "statistics_frequency" (VInt f)))
   = [("s/stats/scnt", VInt (1000000 / f))]) /\
  driver_publishes (fst (_run_cmd_settings self "statistics_frequency" (VInt 2)))
  = [("s/stats/scnt", VInt 500000)] /\
  snd (_run_cmd_settings self "signal_frequency" (VInt f)) = Returned tt /\
  driver_publishes (fst (_run_cmd_settings self "signal_frequency" (VInt f)))
  = [("h/fs", VInt f)].
Proof.
  repeat split; try reflexivity; intros;
    cbn; unfold floordiv;
    destruct (Z.eqb_spec f 0); try contradiction; reflexivity.
Qed.

Lemma frequency_settings_witness :
  driver_publishes (fst (_run_cmd_settings js220_manual "statistics_frequency" (VInt 50)))
  = [("s/stats/scnt", VInt 20000)].
Proof.
  apply (proj1 (frequency_settings js220_manual 50)). discriminate.
Defined.

(** C5 as stated fails for [signal_frequency]: at 500 kHz the handler
    writes 500000 to 'h/fs', which is not the full rate over the frequency,
    1,000,000 / 500,000 = 2, on any topic. *)
Lemma signal_frequency_is_not_divided :
  driver_publishes (fst (_run_cmd_settings js220_manual "signal_frequency" (VInt 500000)))
  = [("h/fs", VInt 500000)] /\
  1000000 / 500000 = 2 /\
  ~ (exists topic,
       driver_publishes
         (fst (_run_cmd_settings js220_manual "signal_frequency" (VInt 500000)))
       = [(topic, VInt (1000000 / 500000))]).
Proof.
  split; [reflexivity |]. split; [reflexivity |].
  intros [topic E]. cbn in E. discriminate E.
Qed.

(** A zero statistics frequency stops the handler with ZeroDivisionError
    before anything is written. *)
Lemma statistics_frequency_zero (self : js220) :
  _run_cmd_settings self "statistics_frequency" (VInt 0)
  = ([log info "setting(%s): %s <= %s"], Raised ZeroDivisionError).
Proof. reflexivity. Qed.

(** ** Topics the settings handler does not act on *)

(** A topic that matches none of the operational branches is ignored: the
    handler returns, writes no register and publishes nothing; it warns
    exactly when the topic is not a structural one either. *)
Lemma settings_not_operational (self : js220) (topic : string) (value : pyval) :
  operational topic = false ->
  snd (_run_cmd_settings self topic value) = Returned tt /\
  driver_publishes (fst (_run_cmd_settings self topic value)) = [] /\
  bus_publishes (fst (_run_cmd_settings self topic value)) = [] /\
  warnings (fst (_run_cmd_settings self topic value))
  = if structural topic then [] else ["Unsupported topic %s"].
Proof.
  unfold operational. cbn [existsb]. intros H.
  repeat match goal with
         | E : _ || _ = false |- _ => apply orb_false_elim in E; destruct E
         end.
  unfold _run_cmd_settings, structural.
  repeat match goal with E : _ = false |- _ => rewrite E; clear E end.
  destruct (existsb _ _); [cbn; auto |].
  cbn [orb]. destruct (startswith "signals/" topic); cbn; auto.
Qed.

(** C8: a topic that is not one of the recognized operational topics
    makes the handler do nothing but log: it records the setting, adds
    one warning exactly when the topic is not a structural one either
    (an informational field, a nested object root, a 'signals/...'
    subtopic other than the enable ones), writes no register, publishes
    nothing on the bus and returns without an exception.  The handler
    has no write to the object, so the other settings and the state of
    the session are as they were. *)
Theorem unrecognized_topic_ignored (self : js220) (topic : string) (value : pyval) :
  operational topic = false ->
  _run_cmd_settings self topic value
  = (log info "setting(%s): %s <= %s"
       :: (if structural topic then [] else [log warning "Unsupported topic %s"]),
     Returned tt) /\
  _run_cmd self "settings" (Some (topic, value))
  = _run_cmd_settings self topic value /\
  driver_publishes (fst (_run_cmd_settings self topic value)) = [] /\
  bus_publishes (fst (_run_cmd_settings self topic value)) = [] /\
  warnings (fst (_run_cmd_settings self topic value))
  = if structural topic then [] else ["Unsupported topic %s"].
Proof.
  intros Hop.
  destruct (settings_not_operational self topic value Hop) as (_ & Hd & Hb & Hw).
  split; [| repeat split; assumption].
  clear Hd Hb Hw. revert Hop.
  unfold operational. cbn [existsb]. intros H.
  repeat match goal with
         | E : _ || _ = false |- _ => apply orb_false_elim in E; destruct E
         end.
  unfold _run_cmd_settings, structural.
  repeat match goal with E : _ = false |- _ => rewrite E; clear E end.
  destruct (existsb _ _); [reflexivity |].
  cbn [orb]. destruct (startswith "signals/" topic); reflexivity.
Qed.

Lemma unrecognized_topic_ignored_witness :
  _run_cmd_settings js220_manual "signals/i/range" (VInt 3)
  = ([log info "setting(%s): %s <= %s"], Returned tt) /\
  _run_cmd_settings js220_manual "current_rnage" (VInt 3)
  = ([log info "setting(%s): %s <= %s"; log warning "Unsupported topic %s"],
     Returned tt).
Proof.
  split.
  - exact (proj1 (unrecognized_topic_ignored js220_manual "signals/i/range" (VInt 3)
                    eq_refl)).
  - exact (proj1 (unrecognized_topic_ignored js220_manual "current_rnage" (VInt 3)
                    eq_refl)).
Defined.

(** The enable topics and the output topics are operational whatever
    signal or output they name.  For one that is declared nowhere the
    lookup in [_SIGNALS] or [_GPO_BIT] raises KeyError, and the handler
    leaves through it; the settings of a device instance hold no such
    topic. *)
Lemma enable_of_undeclared_signal_raises (self : js220) (value : pyval) :
  operational "signals/x/enable" = true /\
  _run_cmd_settings self "signals/x/enable" value
  = ([log info "setting(%s): %s <= %s"], Raised (KeyError (VStr "x"))).
Proof. split; reflexivity. Qed.

Lemma out_of_undeclared_output_raises (self : js220) (value : pyval) :
  operational "out/9" = true /\
  _run_cmd_settings self "out/9" value
  = ([log info "setting(%s): %s <= %s"], Raised (KeyError (VStr "9"))).
Proof. split; reflexivity. Qed.

(** ** Signal forwarding *)

(** C6: for each declared signal and each stream message with a nonzero
    decimation factor, the forwarding closure publishes one event on its
    topic; the event's sample id and sample rate are the message's divided
    (floor) by the decimation factor, the three original values are kept in
    the origin fields, the timestamp and the data are handed on, and the
    event carries the device descriptor and the signal's declared name,
    unit and element type. *)
Theorem signal_forward_event
  (signal_id : string) (signal : signal_info) (utopic dtopic : string)
  (self : js220) (value : stream_value) :
  In (signal_id, signal) _SIGNALS ->
  decimate_factor value <> 0 ->
  exists fn fwd,
    _signal_forward_factory signal_id utopic = Returned fn /\
    fn self dtopic value = ([pubsub_publish utopic (PSignal fwd)], Returned tt) /\
    fwd_sample_id fwd = sample_id value / decimate_factor value /\
    fwd_sample_freq fwd = sample_rate value / decimate_factor value /\
    fwd_origin_sample_id fwd = sample_id value /\
    fwd_orig_sample_freq fwd = sample_rate value /\
    fwd_orig_decimate_factor fwd = decimate_factor value /\
    fwd_utc fwd = utc value /\
    fwd_data fwd = data value /\
    fwd_source fwd = _info self /\
    fwd_field fwd = name signal /\
    fwd_units fwd = units signal /\
    fwd_dtype fwd = dtype signal.
Proof.
  intros Hin Hd.
  assert (Hget : dict_get _SIGNALS signal_id = Returned signal).
  { cbn in Hin.
    repeat (destruct Hin as [Hin | Hin]; [inversion Hin; subst; reflexivity |]).
    contradiction. }
  unfold _signal_forward_factory. rewrite Hget. cbn [and_then].
  eexists. eexists. split; [reflexivity |].
  unfold floordiv. destruct (Z.eqb_spec (decimate_factor value) 0); [contradiction |].
  cbn. repeat split; reflexivity.
Qed.

(** A zero decimation factor stops the closure with ZeroDivisionError. *)
Lemma signal_forward_zero_decimation
  (utopic dtopic : string) (self : js220) (value : stream_value) :
  decimate_factor value = 0 ->
  exists fn,
    _signal_forward_factory "i" utopic = Returned fn /\
    fn self dtopic value = ([], Raised ZeroDivisionError).
Proof.
  intros H. eexists. split; [reflexivity |].
  cbn. unfold floordiv. rewrite H. reflexivity.
Qed.

Lemma signal_forward_event_witness :
  In ("i", {| name := "current"; dtype := "f32"; units := "A"; default := true;
              topics := ("s/i/ctrl", "s/i/!data") |}) _SIGNALS /\
  exists fn fwd,
    _signal_forward_factory "i" "registry/JS220-000123/events/signals/i/!data"
    = Returned fn /\
    fn js220_manual "s/i/!data" stream_1001
    = ([pubsub_publish "registry/JS220-000123/events/signals/i/!data" (PSignal fwd)],
       Returned tt) /\
    fwd_sample_id fwd = 500 /\ fwd_sample_freq fwd = 1000000.
Proof.
  split; [cbn; auto |].
  destruct (signal_forward_event "i" _ "registry/JS220-000123/events/signals/i/!data"
              "s/i/!data" js220_manual stream_1001
              (or_introl eq_refl) ltac:(discriminate))
    as (fn & fwd & E1 & E2 & E3 & E4 & _).
  exists fn, fwd. auto.
Defined.

(** ** Settings arriving from the bus *)

Lemma string_app_assoc (a b c : string) :
  ((a ++ b) ++ c = a ++ (b ++ c))%string.
Proof. induction a as [| x a IH]; cbn; [reflexivity | now rewrite IH]. Qed.

Lemma prefix_drop (p s : string) :
  startswith p s = true -> s = (p ++ drop (String.length p) s)%string.
Proof.
  unfold startswith. revert s.
  induction p as [| c p IH]; intros s H; [reflexivity |].
  destruct s as [| d s]; [discriminate |].
  cbn in H. destruct (ascii_dec c d) as [-> |]; [| discriminate].
  cbn. f_equal. apply IH, H.
Qed.

(** C10: [_on_settings] does nothing at all while [_thread] is [None].
    With a worker, it enqueues a 'settings' command exactly when the topic
    starts with '<topic name>/settings/': the command goes to the back of
    the queue and carries the topic without that prefix and the value; for
    any other topic the object is left as it was. *)
Theorem on_settings_enqueues (self : js220) (topic : string) (value : pyval) :
  (_thread self = None -> _on_settings self topic value = (self, [])) /\
  (_thread self <> None ->
   (startswith (topic_name self ++ "/settings/") topic = true ->
    exists rest,
      topic = (topic_name self ++ "/settings/" ++ rest)%string /\
      fst (_on_settings self topic value)
      = set_queue self (_queue self ++ [("settings", Some (rest, value))])) /\
   (startswith (topic_name self ++ "/settings/") topic = false ->
    fst (_on_settings self topic value) = self)).
Proof.
  unfold _on_settings. split.
  - intros ->. reflexivity.
  - intros Ht. destruct (_thread self) as [w |]; [clear Ht | contradiction].
    split; intros Hp; rewrite Hp; cbn [negb].
    + exists (drop (String.length (topic_name self ++ "/settings/")) topic).
      split; [| reflexivity].
      rewrite <- string_app_assoc. apply prefix_drop, Hp.
    + destruct (negb _); reflexivity.
Qed.

Lemma on_settings_enqueues_witness :
  fst (_on_settings js220_manual "registry/JS220-000123/settings/signals/i/enable" (VBool true))
  = set_queue js220_manual [("settings", Some ("signals/i/enable", VBool true))].
Proof.
  destruct (on_settings_enqueues js220_manual
              "registry/JS220-000123/settings/signals/i/enable" (VBool true))
    as [_ H].
  destruct (H ltac:(discriminate)) as [H1 _].
  destruct (H1 eq_refl) as (rest & E & ->).
  cbn in E. injection E as <-. reflexivity.
Defined.

(** ** Firmware check *)

Section FirmwareCheck.
Context {release : Release} {driver : Driver}.

(** The [try] fails when the image cannot be fetched, cannot be split
    into segments, or lacks one of the two segments. *)
Lemma release_segments_raised (self : js220) :
  (exists e, release_segments self = Raised e) <->
  (exists e, release_get (firmware_channel self) = Raised e) \/
  (exists image,
     release_get (firmware_channel self) = Returned image /\
     ((exists e, release_to_segments image = Raised e) \/
      exists segments,
        release_to_segments image = Returned segments /\
        ((exists e, dict_get_int segments SUBTYPE_CTRL_APP = Raised e) \/
         (exists e, dict_get_int segments SUBTYPE_SENSOR_FPGA = Raised e)))).
Proof.
  unfold release_segments.
  destruct (release_get (firmware_channel self)) as [image | e0]; cbn [and_then].
  2:{ split; intros _; [left |]; exists e0; reflexivity. }
  destruct (release_to_segments image) as [segments | e1] eqn:Es; cbn [and_then].
  2:{ split; intros _; [| exists e1; reflexivity].
      right. exists image. split; [reflexivity |]. left. exists e1. exact Es. }
  destruct (dict_get_int segments SUBTYPE_CTRL_APP) as [c | e2] eqn:Ec; cbn [and_then].
  2:{ split; intros _; [| exists e2; reflexivity].
      right. exists image. split; [reflexivity |]. right. exists segments.
      split; [exact Es |]. left. exists e2. exact Ec. }
  destruct (dict_get_int segments SUBTYPE_SENSOR_FPGA) as [f | e3] eqn:Ef; cbn [and_then].
  2:{ split; intros _; [| exists e3; reflexivity].
      right. exists image. split; [reflexivity |]. right. exists segments.
      split; [exact Es |]. right. exists e3. exact Ef. }
  split.
  - intros [e E]. discriminate.
  - intros [[e E] | (im & E & [[e E1] | (sg & E1 & [[e E2] | [e E2]])])];
      try discriminate; injection E as <-; congruence.
Qed.

(** A release image that cannot be fetched or parsed ends the check
    before the device is asked for its versions. *)
Lemma firmware_check_without_release (self : js220) (e : exn) :
  release_segments self = Raised e ->
  _is_firmware_update_available self
  = ([log info "firmware_update_available: Could not parse firmware image"],
     Returned None).
Proof. intros E. unfold _is_firmware_update_available. rewrite E. reflexivity. Qed.


End FirmwareCheck.


(** ** Statistics normalisation *)

Lemma set_statistics_offsets_same (self : js220) :
  set_statistics_offsets self (_statistics_offsets self) = self.
Proof. destruct self; reflexivity. Qed.

Lemma list_last_nonempty (l : list Z) :
  l <> [] -> list_last l = Returned (last l 0).
Proof.
  intros H. unfold list_last.
  destruct (exists_last H) as (l' & a & ->).
  rewrite rev_app_distr, last_last. reflexivity.
Qed.

(** With a baseline of three numbers stored, a message is republished
    against it and the object stays as it is. *)
Lemma on_stats_with_baseline (self : js220) (topic : string) (value : statistics)
  (start c e : Z) :
  _statistics_offsets self = Some [start; c; e] ->
  accum_samples value <> [] ->
  _on_stats self topic value
  = (self,
     ([ui_publish "events/statistics/!data" (PStatistics
         {| accum_samples := start :: tl (accum_samples value);
            charge := charge value - c;
            energy := energy value - e;
            source := Some (unique_id self);
            signals := signals value |})], Returned tt)).
Proof.
  intros Ho Hne. unfold _on_stats. rewrite Ho.
  rewrite <- Ho, set_statistics_offsets_same.
  destruct (accum_samples value); [contradiction | reflexivity].
Qed.

(** Without a baseline, the message supplies it. *)
Lemma on_stats_first (self : js220) (topic : string) (value : statistics) :
  _statistics_offsets self = None ->
  accum_samples value <> [] ->
  _on_stats self topic value
  = (set_statistics_offsets self
       (Some [last (accum_samples value) 0; charge value; energy value]),
     ([ui_publish "events/statistics/!data" (PStatistics
         {| accum_samples := last (accum_samples value) 0 :: tl (accum_samples value);
            charge := charge value - charge value;
            energy := energy value - energy value;
            source := Some (unique_id self);
            signals := signals value |})], Returned tt)).
Proof.
  intros Ho Hne. unfold _on_stats. rewrite Ho.
  rewrite (list_last_nonempty _ Hne). cbn [and_then].
  destruct (accum_samples value); [contradiction | reflexivity].
Qed.

(** [_on_stats] writes no field but the baseline, and leaves a stored
    baseline alone, whatever the message. *)
Lemma on_stats_frame (self : js220) (topic : string) (value : statistics) :
  exists o, fst (_on_stats self topic value) = set_statistics_offsets self o.
Proof.
  unfold _on_stats.
  destruct (_statistics_offsets self) as [o |] eqn:Ho; cbn.
  - exists (Some o).
    destruct o as [| ? [| ? [| ? [| ? ?]]]]; try reflexivity.
    destruct (accum_samples value); reflexivity.
  - destruct (list_last (accum_samples value)) as [a | e]; cbn.
    + eexists. destruct (accum_samples value); reflexivity.
    + exists None. rewrite <- Ho. symmetry. apply set_statistics_offsets_same.
Qed.

Lemma on_stats_keeps_baseline (self : js220) (topic : string) (value : statistics)
  (o : list Z) :
  _statistics_offsets self = Some o -> fst (_on_stats self topic value) = self.
Proof.
  intros Ho. unfold _on_stats. rewrite Ho.
  rewrite <- Ho, set_statistics_offsets_same.
  destruct o as [| ? [| ? [| ? [| ? ?]]]]; try reflexivity.
  destruct (accum_samples value); reflexivity.
Qed.

Lemma deliver_frame (values : list statistics) (self : js220) :
  exists o, fst (deliver self values) = set_statistics_offsets self o.
Proof.
  revert self. induction values as [| v vs IH]; intros self; cbn.
  - exists (_statistics_offsets self). symmetry. apply set_statistics_offsets_same.
  - destruct (on_stats_frame self "s/stats/value" v) as [o1 E1].
    destruct (_on_stats self "s/stats/value" v) as [self1 r]. cbn in E1. subst self1.
    destruct (IH (set_statistics_offsets self o1)) as [o2 E2].
    destruct (deliver (set_statistics_offsets self o1) vs) as [self2 rs].
    cbn in *. subst self2. exists o2. reflexivity.
Qed.

Lemma deliver_keeps_baseline (values : list statistics) (self : js220) (o : list Z) :
  _statistics_offsets self = Some o -> fst (deliver self values) = self.
Proof.
  intros Ho. induction values as [| v vs IH]; cbn; [reflexivity |].
  pose proof (on_stats_keeps_baseline self "s/stats/value" v o Ho) as E1.
  destruct (_on_stats self "s/stats/value" v) as [self1 r]. cbn in E1. subst self1.
  destruct (deliver self vs) as [self2 rs]. exact IH.
Qed.

Lemma deliver_with_baseline (values : list statistics) (self : js220) (start c e : Z) :
  _statistics_offsets self = Some [start; c; e] ->
  Forall (fun v => accum_samples v <> []) values ->
  Forall2 (normalized self start c e) values (snd (deliver self values)).
Proof.
  intros Ho Hall. induction Hall as [| v vs Hv Hvs IH]; cbn; [constructor |].
  rewrite (on_stats_with_baseline self _ v start c e Ho Hv).
  destruct (deliver self vs) as [self2 rs]. cbn in *.
  constructor; [| exact IH].
  eexists. split; [reflexivity |]. cbn. auto.
Qed.

(** C3: when messages arrive while no baseline is stored, the first one
    supplies the baseline: the last entry of its sample range, its charge
    and its energy.  Every message, the first included, is republished on
    'events/statistics/!data' with the baseline charge and energy
    subtracted, the start of its sample range replaced by the baseline
    sample index, and the device's unique id as source; so the first one
    goes out with charge and energy zero. *)
Theorem statistics_normalized_from_first
  (self : js220) (first : statistics) (later : list statistics) :
  _statistics_offsets self = None ->
  Forall (fun v => accum_samples v <> []) (first :: later) ->
  _statistics_offsets (fst (deliver self (first :: later)))
  = Some [last (accum_samples first) 0; charge first; energy first] /\
  Forall2 (normalized self (last (accum_samples first) 0) (charge first) (energy first))
    (first :: later) (snd (deliver self (first :: later))) /\
  exists out rs,
    snd (deliver self (first :: later))
    = ([ui_publish "events/statistics/!data" (PStatistics out)], Returned tt) :: rs /\
    charge out = 0 /\ energy out = 0.
Proof.
  intros Ho Hall. inversion Hall as [| v vs Hfirst Hlater]; subst.
  cbn [deliver]. rewrite (on_stats_first self _ first Ho Hfirst).
  set (base := [last (accum_samples first) 0; charge first; energy first]).
  set (self1 := set_statistics_offsets self (Some base)).
  assert (H1 : _statistics_offsets self1 = Some base) by reflexivity.
  pose proof (deliver_keeps_baseline later self1 base H1) as Hk.
  pose proof (deliver_with_baseline later self1 _ _ _ H1 Hlater) as Hn.
  destruct (deliver self1 later) as [self2 rs]. cbn in Hk, Hn. subst self2.
  cbn [fst snd]. split; [exact H1 |]. split.
  - constructor; [| exact Hn].
    eexists. split; [reflexivity |]. cbn. auto.
  - eexists. exists rs. split; [reflexivity |]. cbn. split; lia.
Qed.

Lemma statistics_normalized_from_first_witness :
  snd (deliver js220_manual [stats_a; stats_b])
  = [ ([ui_publish "events/statistics/!data" (PStatistics
          {| accum_samples := [500000; 500000]; charge := 0; energy := 0;
             source := Some "JS220-000123"; signals := [] |})], Returned tt);
      ([ui_publish "events/statistics/!data" (PStatistics
          {| accum_samples := [500000; 1000000]; charge := 3; energy := 4;
             source := Some "JS220-000123"; signals := [] |})], Returned tt) ].
Proof.
  destruct (statistics_normalized_from_first js220_manual stats_a [stats_b] eq_refl)
    as (_ & H & _).
  - repeat constructor; discriminate.
  - inversion H as [| ? r0 ? rs0 (o0 & E0 & C0 & N0 & A0 & S0 & G0) H' Eq1 Eq2]; subst.
    reflexivity.
Defined.

(** ** Clearing and restoring the accumulators *)

(** C4 (as the code has it): the clear action with [None] returns the
    stored baseline and stores [None]; giving the returned value to the
    action again puts the object back exactly as it was at the clear,
    whatever arrived in between.  If a baseline was stored at the clear,
    or nothing arrived between the clear and the restore, every message
    after the restore is republished exactly as if the action had never
    been invoked. *)
Theorem accum_clear_then_restore
  (self0 : js220) (topic : string) (before between after : list statistics) :
  let self := fst (deliver self0 before) in
  let cleared := on_action_accum_clear self topic None in
  let prev_value := snd (snd cleared) in
  let restored :=
    on_action_accum_clear (fst (deliver (fst cleared) between)) topic prev_value in
  prev_value = _statistics_offsets self /\
  fst (snd cleared) = topic /\
  _statistics_offsets (fst cleared) = None /\
  fst restored = self /\
  (_statistics_offsets self <> None \/ between = [] ->
   deliver (fst restored) after = deliver (fst (deliver self between)) after).
Proof.
  cbv zeta. set (self := fst (deliver self0 before)).
  unfold on_action_accum_clear at 2 3 4. cbn [fst snd].
  assert (R : fst (on_action_accum_clear
                     (fst (deliver (set_statistics_offsets self None) between))
                     topic (_statistics_offsets self)) = self).
  { unfold on_action_accum_clear. cbn [fst].
    destruct (deliver_frame between (set_statistics_offsets self None)) as [o ->].
    change (set_statistics_offsets self (_statistics_offsets self) = self).
    apply set_statistics_offsets_same. }
  repeat split; try reflexivity; [exact R |].
  intros H.
  change (fst (on_action_accum_clear self topic None))
    with (set_statistics_offsets self None).
  change (snd (snd (on_action_accum_clear self topic None)))
    with (_statistics_offsets self).
  rewrite R. destruct H as [H | ->]; [| reflexivity].
  destruct (_statistics_offsets self) as [o |] eqn:Ho; [| contradiction].
  rewrite (deliver_keeps_baseline between self o Ho). reflexivity.
Qed.

Lemma accum_clear_then_restore_witness :
  deliver
    (fst (on_action_accum_clear
            (fst (deliver
                    (fst (on_action_accum_clear
                            (fst (deliver js220_manual [stats_a])) "t" None))
                    [stats_b]))
            "t" (Some [500000; 5; 7])))
    [stats_b]
  = deliver (fst (deliver (fst (deliver js220_manual [stats_a])) [stats_b])) [stats_b].
Proof.
  apply (accum_clear_then_restore js220_manual "t" [stats_a] [stats_b] [stats_b]).
  left. discriminate.
Defined.

(** C4 as stated fails when no baseline is stored at the clear and a
    message arrives before the restore: the restore stores [None] again,
    so the next message is republished with charge 0 instead of the
    8 - 5 = 3 it has when the action is never invoked. *)
Lemma accum_clear_restore_without_baseline :
  let cleared := on_action_accum_clear js220_000123 "t" None in
  let restored :=
    on_action_accum_clear (fst (deliver (fst cleared) [stats_a])) "t"
      (snd (snd cleared)) in
  snd (snd cleared) = None /\
  (exists out, snd (deliver (fst restored) [stats_b])
     = [([ui_publish "events/statistics/!data" (PStatistics out)], Returned tt)] /\
     charge out = 0) /\
  (exists out, snd (deliver (fst (deliver js220_000123 [stats_a])) [stats_b])
     = [([ui_publish "events/statistics/!data" (PStatistics out)], Returned tt)] /\
     charge out = 3) /\
  snd (deliver (fst restored) [stats_b])
  <> snd (deliver (fst (deliver js220_000123 [stats_a])) [stats_b]).
Proof.
  cbv zeta. split; [reflexivity |].
  split; [eexists; split; reflexivity |].
  split; [eexists; split; reflexivity |].
  cbn. intros H. discriminate H.
Qed.

(** ** Open and close requests *)



















(** ** Time map *)

Import TimeMap.
Local Open Scope Q_scope.

(** *** Rounding *)

Lemma Qfloor_unique (q : Q) (z : Z) :
  inject_Z z <= q -> q < inject_Z (z + 1) -> Qfloor q = z.
Proof.
  intros H1 H2.
  pose proof (Qfloor_le q) as F1. pose proof (Qlt_floor q) as F2.
  assert (A : (Qfloor q < z + 1)%Z).
  { rewrite Zlt_Qlt. eapply Qle_lt_trans; eassumption. }
  assert (B : (z < Qfloor q + 1)%Z).
  { rewrite Zlt_Qlt. eapply Qle_lt_trans; eassumption. }
  lia.
Qed.




Lemma snap_integer (m : rounding) (q : Q) (z : Z) :
  q == inject_Z z -> snap m q == inject_Z z.
Proof.
  intros E.
  assert (Ef : Qfloor q = z) by (rewrite E; apply Qfloor_Z).
  assert (Ec : Qceiling q = z) by (rewrite E; apply Qceiling_Z).
  destruct m; cbn [snap].
  - exact E.
  - rewrite Ef. reflexivity.
  - rewrite Ec. reflexivity.
  - destruct (Qle_bool 0 q); rewrite ?Ef, ?Ec; reflexivity.
  - rewrite (Qfloor_unique (q + (1 # 2)) z); [reflexivity | |].
    + rewrite E. lra.
    + rewrite E, inject_Z_plus. change (inject_Z 1) with 1. lra.
  - unfold round_half_even. rewrite Ef.
    destruct (Qcompare_spec (q - inject_Z z) (1 # 2)) as [H | H | H];
      try reflexivity; rewrite E in H; lra.
Qed.





(** *** The two maps *)

(** The test's assertions on pixels and time hold for every window with
    a nonzero width in time and in pixels, however the results are
    rounded: the scale is the ratio of the two widths, so the values the
    test asks for are integers before any rounding. *)
Lemma convert_test (mp mt : rounding) (z_p w_p z_t w_t : Z) :
  (w_t <> 0)%Z -> (w_p <> 0)%Z ->
  let tm := update TimeMap.TimeMap z_p z_t (inject_Z w_p / inject_Z w_t) in
  time64_to_pixel mp tm (inject_Z z_t) == inject_Z z_p /\
  pixel_to_time64 mt tm (inject_Z z_p) == inject_Z z_t /\
  time64_to_pixel mp tm (inject_Z (z_t + w_t)) == inject_Z (z_p + w_p) /\
  pixel_to_time64 mt tm (inject_Z (z_p + w_p)) == inject_Z (z_t + w_t).
Proof.
  intros Ht Hp. cbv zeta.
  assert (Ht' : ~ inject_Z w_t == 0).
  { intros H. apply Ht. apply (proj1 (inject_Z_injective w_t 0)). exact H. }
  assert (Hp' : ~ inject_Z w_p == 0).
  { intros H. apply Hp. apply (proj1 (inject_Z_injective w_p 0)). exact H. }
  unfold time64_to_pixel, pixel_to_time64, update. cbn.
  repeat split.
  - rewrite (snap_integer mp _ 0); [ring | field; exact Ht'].
  - rewrite (snap_integer mt _ 0); [ring | field; auto].
  - rewrite (snap_integer mp _ w_p); [rewrite inject_Z_plus; ring |].
    rewrite inject_Z_plus. field. exact Ht'.
  - rewrite (snap_integer mt _ w_t); [rewrite inject_Z_plus; ring |].
    rewrite inject_Z_plus. field. auto.
Qed.



(** At the zoom of the test, 200 pixels to the second, a pixel is more
    than five million time units wide.  The time of pixel 101 lies
    between two integers, 1079110533 when rounded, and the unrounded
    pixel of that time is not 101; and the time one unit after the
    anchor falls on the anchor's pixel, 100, whose time is the anchor. *)
Lemma round_trip_at_test_zoom :
  let tm := update TimeMap.TimeMap 100 1073741824 (200 # 1073741824) in
  pixel_to_time64 unrounded tm (inject_Z 101) == 26977763328 # 25 /\
  pixel_to_time64 to_zero tm (inject_Z 101) == inject_Z 1079110533 /\
  pixel_to_time64 half_even tm (inject_Z 101) == inject_Z 1079110533 /\
  ~ time64_to_pixel unrounded tm (pixel_to_time64 half_even tm (inject_Z 101))
    == inject_Z 101 /\
  time64_to_pixel half_even tm (inject_Z 1073741825) == inject_Z 100 /\
  ~ pixel_to_time64 half_even tm (time64_to_pixel half_even tm (inject_Z 1073741825))
    == inject_Z 1073741825.
Proof.
  cbv zeta. repeat split; try (vm_compute; reflexivity);
    intros H; vm_compute in H; discriminate H.
Qed.


(** * Further properties of the device wrapper *)

Local Close Scope Q_scope.
Local Open Scope Z_scope.
Local Open Scope string_scope.
Local Open Scope list_scope.

(** ** Splitting and joining *)

Lemma split_not_nil (c : ascii) (s : string) : split c s <> [].
Proof.
  destruct s as [| x s]; cbn; [discriminate |].
  destruct (Ascii.eqb x c); [discriminate |].
  destruct (split c s); discriminate.
Qed.

Lemma split_free (c : ascii) (s : string) :
  has_char c s = false -> split c s = [s].
Proof.
  induction s as [| x s IH]; cbn; [reflexivity |].
  intros H. apply orb_false_elim in H. destruct H as [Hx Hs].
  rewrite Hx, (IH Hs). reflexivity.
Qed.

Lemma split_app_sep (c : ascii) (a b : string) :
  has_char c a = false ->
  split c (a ++ String c b)%string = a :: split c b.
Proof.
  induction a as [| x a IH]; cbn.
  - intros _. rewrite Ascii.eqb_refl. reflexivity.
  - intros H. apply orb_false_elim in H. destruct H as [Hx Ha].
    rewrite Hx, (IH Ha). reflexivity.
Qed.

Lemma split_join (c : ascii) (parts : list string) :
  parts <> [] ->
  Forall (fun p => has_char c p = false) parts ->
  split c (join (String c EmptyString) parts) = parts.
Proof.
  intros Hne Hall. induction Hall as [| p rest Hp Hrest IH]; [contradiction |].
  destruct rest as [| q rest].
  - cbn. apply split_free, Hp.
  - change (join (String c EmptyString) (p :: q :: rest))
      with (p ++ String c (join (String c EmptyString) (q :: rest)))%string.
    rewrite (split_app_sep c p _ Hp). f_equal. apply IH. discriminate.
Qed.

Lemma join_split (c : ascii) (s : string) :
  join (String c EmptyString) (split c s) = s.
Proof.
  induction s as [| x s IH]; cbn; [reflexivity |].
  destruct (Ascii.eqb_spec x c) as [-> | Hx].
  - destruct (split c s) as [| w ws] eqn:E; [now apply split_not_nil in E |].
    cbn in IH |- *. rewrite IH. reflexivity.
  - destruct (split c s) as [| w ws] eqn:E; [now apply split_not_nil in E |].
    destruct ws as [| w' ws]; cbn in IH |- *; rewrite <- IH; reflexivity.
Qed.

Lemma split_parts_free (c : ascii) (s : string) :
  Forall (fun p => has_char c p = false) (split c s).
Proof.
  induction s as [| x s IH]; cbn; [repeat constructor |].
  destruct (Ascii.eqb x c) eqn:Hx.
  - constructor; [reflexivity | exact IH].
  - destruct (split c s) as [| w ws]; [repeat constructor; cbn; now rewrite Hx |].
    inversion IH; subst. constructor; [cbn; now rewrite Hx | assumption].
Qed.

(** ** Device paths *)

(** X1: [__init__] accepts exactly the device paths made of three parts
    separated by '/': the path it accepts is its first part, its second
    part and the serial number it stores, joined by '/', and the object
    starts without worker, with an empty queue, no statistics baseline
    and state 'closed'; any other path raises ValueError. *)
Theorem init_device_path (uid tname device_path : string) :
  (forall self,
     __init__ uid tname device_path = Returned self ->
     (exists prefix model_,
        device_path = join "/" [prefix; model_; serial_number (_info self)] /\
        has_char "/" prefix = false /\ has_char "/" model_ = false /\
        has_char "/" (serial_number (_info self)) = false) /\
     unique_id self = uid /\ topic_name self = tname /\
     _thread self = None /\ _queue self = [] /\ _quit self = false /\
     _driver_device_open self = false /\ _statistics_offsets self = None /\
     settings_state self = closed) /\
  (forall e,
     __init__ uid tname device_path = Raised e ->
     e = ValueError /\ List.length (split "/" device_path) <> 3%nat) /\
  (List.length (split "/" device_path) = 3%nat ->
   exists self, __init__ uid tname device_path = Returned self).
Proof.
  unfold __init__.
  pose proof (join_split "/" device_path) as Hj.
  pose proof (split_parts_free "/" device_path) as Hf.
  destruct (split "/" device_path) as [| a [| m [| s [| x rest]]]].
  4:{ split; [| split].
      - intros self [= <-]. cbn. repeat split; try reflexivity.
        exists a, m.
        inversion Hf as [| ? ? Ha Hf1]; subst.
        inversion Hf1 as [| ? ? Hm Hf2]; subst.
        inversion Hf2 as [| ? ? Hs _]; subst.
        auto.
      - intros e [=].
      - intros _. eexists. reflexivity. }
  all: split; [intros self [=] | split; [intros e [= <-]; split; [reflexivity | cbn; lia] |]];
    cbn; intros [=].
Qed.

Lemma init_device_path_witness :
  exists self,
    __init__ "JS220-000123" "registry/JS220-000123" "u/js220/000123" = Returned self.
Proof.
  apply (proj2 (proj2 (init_device_path "JS220-000123" "registry/JS220-000123"
                         "u/js220/000123"))).
  reflexivity.
Defined.

(** ** Version strings *)

Lemma str_inj (a b : Z) : str a = str b -> a = b.
Proof.
  unfold str. intros H. apply DecimalZ.to_int_inj.
  assert (N : forall z, Z.to_int z <> Decimal.Pos Decimal.Nil /\
                        Z.to_int z <> Decimal.Neg Decimal.Nil).
  { intros [| p | p]; cbn; split; try discriminate;
      intros [= E]; now apply DecimalPos.Unsigned.to_uint_nonnil in E. }
  pose proof (NilZero.isi (Z.to_int a) (proj1 (N a)) (proj2 (N a))) as Ha.
  pose proof (NilZero.isi (Z.to_int b) (proj1 (N b)) (proj2 (N b))) as Hb.
  rewrite H in Ha. congruence.
Qed.

Lemma digits_no_dot (u : Decimal.uint) :
  has_char "." (NilEmpty.string_of_uint u) = false.
Proof. induction u; cbn; auto. Qed.

Lemma str_no_dot (z : Z) : 0 <= z -> has_char "." (str z) = false.
Proof.
  intros Hz. unfold str.
  destruct z as [| p | p]; [reflexivity | | lia].
  cbn. unfold NilZero.string_of_uint.
  destruct (Pos.to_uint p); try reflexivity; apply (digits_no_dot (_ _)).
Qed.

(** [int(str(z)) == z]. *)
Lemma int_str (z : Z) : Py.int (VStr (str z)) = Returned z.
Proof.
  unfold Py.int, str.
  assert (N : Z.to_int z <> Decimal.Pos Decimal.Nil /\
              Z.to_int z <> Decimal.Neg Decimal.Nil).
  { destruct z as [| p | p]; cbn; split; try discriminate;
      intros [= E]; now apply DecimalPos.Unsigned.to_uint_nonnil in E. }
  rewrite (NilZero.isi _ (proj1 N) (proj2 N)), DecimalZ.of_to. reflexivity.
Qed.

Lemma version_fields (v : Z) :
  u32 v ->
  Z.land (Z.shiftr v 24) 255 = v / 16777216 /\
  Z.land (Z.shiftr v 16) 255 = (v / 65536) mod 256 /\
  Z.land v 65535 = v mod 65536.
Proof.
  unfold u32. intros Hv.
  change 255 with (Z.ones 8). change 65535 with (Z.ones 16).
  rewrite !Z.land_ones, !Z.shiftr_div_pow2 by lia.
  change (2 ^ 24) with 16777216. change (2 ^ 16) with 65536. change (2 ^ 8) with 256.
  repeat split. apply Z.mod_small.
  split; [apply Z.div_pos; lia | apply Z.div_lt_upper_bound; lia].
Qed.

(** X2: for a 32-bit version, [_version_u32_to_str] prints three decimal
    fields: major below 256, minor below 256 and patch below 65536, with
    version = major * 2^24 + minor * 2^16 + patch; the numeric order of
    two versions is the order of their fields, major first, and two
    versions print the same string only if they are equal. *)
Theorem version_u32_to_str_fields (v : Z) :
  u32 v ->
  (exists major minor patch,
     _version_u32_to_str v = join "." [str major; str minor; str patch] /\
     0 <= major < 256 /\ 0 <= minor < 256 /\ 0 <= patch < 65536 /\
     v = major * 16777216 + minor * 65536 + patch /\
     forall w major' minor' patch',
       w = major' * 16777216 + minor' * 65536 + patch' ->
       0 <= minor' < 256 -> 0 <= patch' < 65536 ->
       (v <= w <->
        major < major' \/
        major = major' /\ (minor < minor' \/ minor = minor' /\ patch <= patch'))) /\
  (forall w, u32 w -> _version_u32_to_str v = _version_u32_to_str w -> v = w).
Proof.
  intros Hv. pose proof (version_fields v Hv) as (E1 & E2 & E3).
  assert (B : 0 <= v / 16777216 < 256 /\ 0 <= (v / 65536) mod 256 < 256 /\
              0 <= v mod 65536 < 65536 /\
              v = v / 16777216 * 16777216 + (v / 65536) mod 256 * 65536 + v mod 65536).
  { unfold u32 in Hv. Z.div_mod_to_equations. lia. }
  destruct B as (B1 & B2 & B3 & B4).
  split.
  - exists (v / 16777216), ((v / 65536) mod 256), (v mod 65536).
    split; [unfold _version_u32_to_str; rewrite E1, E2, E3; reflexivity |].
    repeat (split; [assumption |]).
    intros w a b c -> Hb Hc.
    set (x := v / 16777216) in *. set (y := (v / 65536) mod 256) in *.
    set (z := v mod 65536) in *. clearbody x y z. rewrite B4. lia.
  - intros w Hw H. pose proof (version_fields w Hw) as (F1 & F2 & F3).
    unfold _version_u32_to_str in H. rewrite E1, E2, E3, F1, F2, F3 in H.
    assert (C : 0 <= w / 16777216 < 256 /\ 0 <= (w / 65536) mod 256 < 256 /\
                0 <= w mod 65536 < 65536 /\
                w = w / 16777216 * 16777216 + (w / 65536) mod 256 * 65536 + w mod 65536).
    { unfold u32 in Hw. Z.div_mod_to_equations. lia. }
    destruct C as (C1 & C2 & C3 & C4).
    apply (f_equal (split ".")) in H.
    change (join "." ?l) with (join (String "." EmptyString) l) in H.
    rewrite !split_join in H;
      try discriminate;
      try (repeat constructor; apply str_no_dot; lia).
    cbn [map] in H. injection H as H1 H2 H3.
    apply str_inj in H1, H2, H3. rewrite B4, C4. congruence.
Qed.

Lemma version_u32_to_str_fields_witness :
  u32 16908291 /\
  forall w, u32 w -> _version_u32_to_str 16908291 = _version_u32_to_str w -> 16908291 = w.
Proof.
  assert (H : u32 16908291) by (unfold u32; lia).
  split; [exact H |].
  exact (proj2 (version_u32_to_str_fields 16908291 H)).
Defined.

(** ** The settings handler *)

Lemma dict_get_In {V : Type} (d : list (string * V)) (key : string) (v : V) :
  dict_get d key = Returned v -> In (key, v) d.
Proof.
  induction d as [| [k x] d IH]; cbn; [discriminate |].
  destruct (String.eqb_spec k key) as [-> | _].
  - intros [= ->]. now left.
  - intros H. right. apply IH, H.
Qed.

Lemma in_by_eqb (x : string) (l : list string) :
  existsb (String.eqb x) l = true -> In x l.
Proof.
  intros H. apply existsb_exists in H. destruct H as (y & Hy & E).
  apply String.eqb_eq in E. now subst.
Qed.

(** Runs the monad's plumbing without unfolding the Python helpers. *)
Ltac msimpl :=
  cbn [bind lift emit ret fst snd app _log _driver_publish
       driver_publishes bus_publishes warnings].

(** Splits a handler call into its branches and runs each to its end. *)
Ltac handler_branches :=
  repeat (msimpl;
          match goal with
          | |- context [if ?c then _ else _] => destruct c eqn:?
          | |- context [match ?o with Returned _ => _ | Raised _ => _ end] =>
              destruct o eqn:?
          end);
  msimpl.

(** X3: whatever the topic and the value, the settings handler writes
    only to the signal control registers and to the registers of the
    outputs, the sample rate, the statistics decimation, the two ranges,
    the trigger direction and the GPIO reference; and for every topic
    but 'name' it publishes nothing on the bus. *)
Theorem settings_handler_registers (self : js220) (topic : string) (value : pyval) :
  Forall (fun tv => In (fst tv) settings_registers)
    (driver_publishes (fst (_run_cmd_settings self topic value))) /\
  (topic <> "name" -> bus_publishes (fst (_run_cmd_settings self topic value)) = []).
Proof.
  unfold _run_cmd_settings, _current_range_update.
  destruct (endswith "/enable" topic) eqn:He.
  { msimpl.
    destruct (list_get (split "/" topic) 1) as [signal_id | e]; msimpl;
      [| split; [constructor | auto]].
    destruct (dict_get _SIGNALS signal_id) as [s | e] eqn:Hs; msimpl;
      [| split; [constructor | auto]].
    split; [| auto].
    constructor; [| constructor]. cbn [fst].
    apply dict_get_In in Hs. unfold settings_registers. apply in_or_app. left.
    apply (in_map (fun s => fst (topics (snd s))) _ _ Hs). }
  destruct (startswith "out/" topic) eqn:Ho.
  { msimpl.
    destruct (dict_get _GPO_BIT (drop 4 topic)) as [v | e]; msimpl;
      [| split; [constructor | auto]].
    split; [| auto].
    destruct (truthy value);
      (apply Forall_cons; [apply in_by_eqb; reflexivity | apply Forall_nil]). }
  destruct (String.eqb_spec topic "name") as [-> | Hn].
  { cbn. split; [constructor | intros H; now contradiction H]. }
  split.
  - handler_branches;
      repeat (apply Forall_cons; [apply in_by_eqb; reflexivity |]); apply Forall_nil.
  - handler_branches; auto.
Qed.

(** Runs the handler at a given topic and value to its result. *)
Ltac handler_returns :=
  unfold _run_cmd_settings, _current_range_update; cbn;
  repeat match goal with
         | |- context [if ?c then _ else _] => destruct c
         end;
  reflexivity.

(** X4: the handler warns about a topic exactly when the topic matches
    none of its branches; for every key of the settings of a device
    instance it does not warn, whatever the value, and it returns
    normally at the key's default and at each of its options. *)
Theorem settings_schema_handled (self : js220) (topic : string) (value : pyval) :
  warnings (fst (_run_cmd_settings self topic value))
  = (if operational topic || structural topic then [] else ["Unsupported topic %s"]) /\
  forall name info key entry,
    In (key, entry) (instance_settings name info) ->
    operational key || structural key = true /\
    (forall v, s_default entry = PVal v ->
               snd (_run_cmd_settings self key v) = Returned tt) /\
    (forall v label, In (v, label) (s_options entry) ->
                     snd (_run_cmd_settings self key v) = Returned tt).
Proof.
  split.
  - destruct (operational topic) eqn:Hop.
    2:{ cbn [orb]. apply (settings_not_operational self topic value Hop). }
    cbn [orb]. unfold operational in Hop. cbn [existsb] in Hop.
    unfold _run_cmd_settings, _current_range_update.
    handler_branches; try reflexivity.
    all: repeat match goal with
                | E : _ = false |- _ => rewrite E in Hop; clear E
                end; discriminate Hop.
  - intros name info key entry Hin. cbn in Hin.
    repeat (destruct Hin as [Hin | Hin];
            [injection Hin as <- <-; split; [reflexivity |]; split;
             [ intros v Hd; try discriminate Hd; injection Hd as <-; handler_returns
             | intros v label Ho; cbn in Ho;
               repeat (destruct Ho as [Ho | Ho]; [injection Ho as <- <-; handler_returns |]);
               contradiction ] |]).
    contradiction.
Qed.

Lemma settings_schema_handled_witness :
  operational "signals/T/enable" || structural "signals/T/enable" = true /\
  snd (_run_cmd_settings js220_manual "statistics_frequency" (VInt 100)) = Returned tt.
Proof.
  destruct (settings_schema_handled js220_manual "name" VNone) as [_ H].
  split.
  - apply (H "JS220-000123" (_info js220_manual) "signals/T/enable"
             {| s_dtype := "bool"; s_default := PVal (VBool false);
                s_options := []; s_flags := ["hide"] |}).
    cbn. tauto.
  - destruct (H "JS220-000123" (_info js220_manual) "statistics_frequency"
                {| s_dtype := "int"; s_default := PVal (VInt 2);
                   s_options := int_options
                     [ (100, "100 Hz"); (50, "50 Hz"); (20, "20 Hz"); (10, "10 Hz");
                       (5, "5 Hz"); (2, "2 Hz"); (1, "1 Hz") ];
                   s_flags := [] |}) as (_ & _ & Ho).
    + cbn. tauto.
    + apply (Ho (VInt 100) "100 Hz"). cbn. tauto.
Defined.

(** X5: the two current-range limits are each clamped into 0..5 and then
    put in order: whatever two integers arrive, 's/i/range/min' gets the
    smaller and 's/i/range/max' the larger of the clamped values, so
    0 <= min <= max <= 5 holds of what is written; limits already in
    range and in order are written as they are, and [None] writes 0
    and 5. *)
Theorem current_range_limits_written (self : js220) (a b : Z) :
  let lo := Z.min (clamp_0_5 a) (clamp_0_5 b) in
  let hi := Z.max (clamp_0_5 a) (clamp_0_5 b) in
  snd (_run_cmd_settings self "current_range_limits" (VList [VInt a; VInt b]))
  = Returned tt /\
  driver_publishes
    (fst (_run_cmd_settings self "current_range_limits" (VList [VInt a; VInt b])))
  = [("s/i/range/min", VInt lo); ("s/i/range/max", VInt hi)] /\
  0 <= lo <= hi /\ hi <= 5 /\
  (0 <= a <= b -> b <= 5 -> lo = a /\ hi = b) /\
  driver_publishes (fst (_run_cmd_settings self "current_range_limits" VNone))
  = [("s/i/range/min", VInt 0); ("s/i/range/max", VInt 5)].
Proof.
  cbv zeta. unfold clamp_0_5.
  split; [| split; [| split; [lia | split; [lia | split; [lia | reflexivity]]]]].
  - cbn. repeat (match goal with
                 | |- context [(?x <? ?y)%Z] => destruct (Z.ltb_spec x y)
                 end; cbn); reflexivity.
  - cbn. repeat (match goal with
                 | |- context [(?x <? ?y)%Z] => destruct (Z.ltb_spec x y)
                 end; cbn); repeat f_equal; lia.
Qed.

Lemma current_range_limits_written_witness :
  Z.min (clamp_0_5 1) (clamp_0_5 4) = 1 /\ Z.max (clamp_0_5 1) (clamp_0_5 4) = 4.
Proof.
  apply (proj1 (proj2 (proj2 (proj2 (proj2
           (current_range_limits_written js220_manual 1 4)))))); lia.
Defined.

(** A limits value that is no pair stops the handler before anything is
    written. *)
Lemma current_range_limits_malformed (self : js220) (a : Z) :
  _run_cmd_settings self "current_range_limits" (VList [VInt a])
  = ([log info "setting(%s): %s <= %s"], Raised ValueError) /\
  _run_cmd_settings self "current_range_limits" (VInt a)
  = ([log info "setting(%s): %s <= %s"], Raised TypeError).
Proof. split; reflexivity. Qed.

(** ** Signal topics *)

Lemma signals_topics_distinct :
  NoDup (map (fun s => fst (topics (snd s))) _SIGNALS) /\
  NoDup (map (fun s => snd (topics (snd s))) _SIGNALS) /\
  NoDup (keys _SIGNALS).
Proof.
  repeat split; cbn;
    repeat (constructor; [cbn; intros H; repeat destruct H as [H | H];
                          try discriminate H; try contradiction |]);
    constructor.
Qed.

Lemma NoDup_map_inj {A B : Type} (f : A -> B) (l : list A) (x y : A) :
  NoDup (map f l) -> In x l -> In y l -> f x = f y -> x = y.
Proof.
  induction l as [| a l IH]; cbn; [contradiction |].
  intros Hnd Hx Hy E. inversion Hnd as [| ? ? Hn Hnd']; subst.
  destruct Hx as [-> | Hx], Hy as [-> | Hy]; auto.
  - exfalso. apply Hn. rewrite E. now apply in_map.
  - exfalso. apply Hn. rewrite <- E. now apply in_map.
Qed.

(** X6: for a declared signal, [signal_subtopics] gives with 'ctrl' the
    register the settings handler writes when the signal is enabled or
    disabled, and with 'data' the topic of its stream; no two signals
    share either topic.  An undeclared signal raises KeyError whatever
    the topic type; a declared one raises ValueError for any other
    topic type. *)
Theorem signal_subtopics_spec (self : js220) (signal_id topic_type : string)
  (value : pyval) :
  (forall s, In (signal_id, s) _SIGNALS ->
     signal_subtopics signal_id "ctrl" = Returned (fst (topics s)) /\
     signal_subtopics signal_id "data" = Returned (snd (topics s)) /\
     driver_publishes
       (fst (_run_cmd_settings self ("signals/" ++ signal_id ++ "/enable") value))
     = [(fst (topics s), VBool (truthy value))] /\
     (topic_type <> "ctrl" -> topic_type <> "data" ->
      signal_subtopics signal_id topic_type = Raised ValueError) /\
     forall other t,
       (topic_type = "ctrl" \/ topic_type = "data") ->
       signal_subtopics signal_id topic_type = Returned t ->
       signal_subtopics other topic_type = Returned t ->
       other = signal_id) /\
  ((forall s, ~ In (signal_id, s) _SIGNALS) ->
   signal_subtopics signal_id topic_type = Raised (KeyError (VStr signal_id))).
Proof.
  split.
  - intros s Hin.
    assert (Hget : dict_get _SIGNALS signal_id = Returned s).
    { cbn in Hin.
      repeat (destruct Hin as [Hin | Hin]; [injection Hin as <- <-; reflexivity |]).
      contradiction. }
    unfold signal_subtopics. rewrite Hget. cbn [and_then].
    split; [reflexivity |]. split; [reflexivity |]. split.
    { cbn in Hin.
      repeat (destruct Hin as [Hin | Hin]; [injection Hin as <- <-; reflexivity |]).
      contradiction. }
    split.
    { intros H1 H2.
      destruct (String.eqb_spec topic_type "ctrl"); [contradiction |].
      destruct (String.eqb_spec topic_type "data"); [contradiction |]. reflexivity. }
    intros other t Hty Ht Ho.
    destruct (dict_get _SIGNALS other) as [s' | e] eqn:Hget'; [| discriminate Ho].
    cbn [and_then] in Ho.
    pose proof (dict_get_In _ _ _ Hget') as Hin'.
    destruct signals_topics_distinct as (Hc & Hd & _).
    destruct Hty as [-> | ->]; cbn in Ht, Ho;
      injection Ht as <-; injection Ho as Ho.
    + apply (NoDup_map_inj (fun s => fst (topics (snd s))) _ (other, s') (signal_id, s)
               Hc Hin' Hin) in Ho. congruence.
    + apply (NoDup_map_inj (fun s => snd (topics (snd s))) _ (other, s') (signal_id, s)
               Hd Hin' Hin) in Ho. congruence.
  - intros Hnot. unfold signal_subtopics.
    destruct (dict_get _SIGNALS signal_id) as [s | e] eqn:Hget.
    + exfalso. apply (Hnot s), dict_get_In, Hget.
    + cbn. clear Hnot.
      assert (G : forall d : list (string * signal_info),
                 dict_get d signal_id = Raised e -> e = KeyError (VStr signal_id)).
      { induction d as [| [k x] d IH]; cbn; [congruence |].
        destruct (String.eqb k signal_id); [discriminate | exact IH]. }
      now rewrite (G _ Hget).
Qed.

Lemma signal_subtopics_spec_witness :
  signal_subtopics "r" "ctrl" = Returned "s/i/range/ctrl" /\
  signal_subtopics "x" "ctrl" = Raised (KeyError (VStr "x")).
Proof.
  split.
  - apply (proj1 (signal_subtopics_spec js220_manual "r" "ctrl" VNone)
             {| name := "current range"; dtype := "u8"; units := EmptyString;
                default := false; topics := ("s/i/range/ctrl", "s/i/range/!data") |}).
    cbn. tauto.
  - apply (proj2 (signal_subtopics_spec js220_manual "x" "ctrl" VNone)).
    intros s H. cbn in H. repeat (destruct H as [H | H]; [discriminate H |]).
    contradiction.
Defined.

(** ** The worker *)

(** Runs the plumbing of a worker method. *)
Ltac wsimpl :=
  cbn [w_bind w_try w_call w_emit w_lift w_get w_modify w_ret w_log
       w_publish_state w_do w_for _ui_publish_state fst snd app map negb].

Section WorkerFacts.
Context {registry : Registry} {transport : Transport} {release : Release} {driver : Driver}.

(** What [_close] does, by the open mark and the answer of the driver. *)
Lemma close_cases (self : js220) :
  (_driver_device_open self = false ->
   _close self
   = (self, ([io_effect (log info "close %s when already closed")], Returned tt))) /\
  (_driver_device_open self = true ->
   unsubscribe_result "s/stats/value" = Returned tt ->
   snd (snd (_close self)) = Returned tt /\
   _driver_device_open (fst (_close self)) = false /\
   settings_state (fst (_close self)) = closing /\
   count_io is_driver_close (fst (snd (_close self))) = 1%nat /\
   driver_publishes (effects_of (fst (snd (_close self))))
   = map (fun s => (fst (topics (snd s)), VInt 0)) _SIGNALS /\
   _close (fst (_close self))
   = (fst (_close self),
      ([io_effect (log info "close %s when already closed")], Returned tt))) /\
  (_driver_device_open self = true ->
   forall e, unsubscribe_result "s/stats/value" = Raised e ->
   snd (snd (_close self)) = Raised e /\
   _driver_device_open (fst (_close self)) = true /\
   count_io is_driver_close (fst (snd (_close self))) = 0%nat /\
   driver_publishes (effects_of (fst (snd (_close self)))) = []).
Proof.
  unfold _close, _close_cleanup. split; [| split].
  - intros H. wsimpl. rewrite H. reflexivity.
  - intros H Hu. wsimpl. rewrite H. wsimpl. rewrite Hu.
    destruct (publish_wait_result "s/stats/ctrl" (VInt 0)) as [[] | e1];
      destruct close_result as [[] | e2]; cbn; repeat split; reflexivity.
  - intros H e Hu. wsimpl. rewrite H. wsimpl. rewrite Hu. cbn.
    repeat split; assumption.
Qed.

(** X7: [_close] on a device that is not open only logs.  On an open
    device whose statistics subscription can be cancelled, it returns
    normally whether or not the last register write and [driver.close]
    raise: it writes 0 to the control register of every signal in table
    order, calls [driver.close] exactly once, leaves the state 'closing'
    and the device marked closed, so that a second [_close] only logs.
    If cancelling the subscription raises, [_close] raises too, before
    any register is written and without calling [driver.close], and the
    device stays marked open. *)
Theorem close_teardown (self : js220) :
  (_driver_device_open self = false ->
   _close self
   = (self, ([io_effect (log info "close %s when already closed")], Returned tt))) /\
  (_driver_device_open self = true ->
   unsubscribe_result "s/stats/value" = Returned tt ->
   snd (snd (_close self)) = Returned tt /\
   _driver_device_open (fst (_close self)) = false /\
   settings_state (fst (_close self)) = closing /\
   count_io is_driver_close (fst (snd (_close self))) = 1%nat /\
   driver_publishes (effects_of (fst (snd (_close self))))
   = map (fun s => (fst (topics (snd s)), VInt 0)) _SIGNALS /\
   _close (fst (_close self))
   = (fst (_close self),
      ([io_effect (log info "close %s when already closed")], Returned tt))) /\
  (_driver_device_open self = true ->
   forall e, unsubscribe_result "s/stats/value" = Raised e ->
   snd (snd (_close self)) = Raised e /\
   _driver_device_open (fst (_close self)) = true /\
   count_io is_driver_close (fst (snd (_close self))) = 0%nat /\
   driver_publishes (effects_of (fst (snd (_close self)))) = []).
Proof. exact (close_cases self). Qed.

(** What [_open] does, by the answers of the driver. *)
Lemma open_cases (self : js220) :
  (snd (snd (_open self)) = Returned 0 \/ snd (snd (_open self)) = Returned 1) /\
  (snd (snd (_open self)) = Returned 0 <->
   open_result "restore" = Returned tt /\
   (exists hw fw fpga,
      _driver_query "c/hw/version" = Returned hw /\
      _driver_query "c/fw/version" = Returned fw /\
      _driver_query "s/fpga/version" = Returned fpga) /\
   subscribe_result "s/stats/value" = Returned tt /\
   publish_wait_result "s/dbg/mode" (VStr "fpga_dev") = Returned tt) /\
  (snd (snd (_open self)) = Returned 0 ->
   _driver_device_open (fst (_open self)) = true /\
   settings_state (fst (_open self)) = settings_state self /\
   _quit (fst (_open self)) = _quit self /\
   forall hw fw fpga,
     _driver_query "c/hw/version" = Returned hw ->
     _driver_query "c/fw/version" = Returned fw ->
     _driver_query "s/fpga/version" = Returned fpga ->
     version (_info (fst (_open self)))
     = Some (str (Z.shiftr hw 24), _version_u32_to_str fw, _version_u32_to_str fpga)) /\
  (snd (snd (_open self)) = Returned 1 ->
   _driver_device_open (fst (_open self)) = _driver_device_open self /\
   settings_state (fst (_open self)) = closing /\
   count_io is_driver_close (fst (snd (_open self))) = 0%nat) /\
  count_io is_driver_open (fst (snd (_open self))) = 1%nat /\
  count_io is_driver_close (fst (snd (_open self))) = 0%nat.
Proof.
  unfold _open, _open_config. wsimpl.
  destruct (open_result "restore") as [[] | e0]; wsimpl.
  2:{ cbn. repeat split; auto; try discriminate.
      intros (H & _). discriminate H. }
  destruct (_driver_query "c/hw/version") as [hw | e1]; wsimpl.
  2:{ cbn. repeat split; auto; try discriminate.
      intros (_ & (? & ? & ? & H & _) & _). discriminate H. }
  destruct (_driver_query "c/fw/version") as [fw | e2]; wsimpl.
  2:{ cbn. repeat split; auto; try discriminate.
      intros (_ & (? & ? & ? & _ & H & _) & _). discriminate H. }
  destruct (_driver_query "s/fpga/version") as [fpga | e3]; wsimpl.
  2:{ cbn. repeat split; auto; try discriminate.
      intros (_ & (? & ? & ? & _ & _ & H) & _). discriminate H. }
  destruct (subscribe_result "s/stats/value") as [[] | e4]; wsimpl.
  2:{ cbn. repeat split; auto; try discriminate.
      intros (_ & _ & H & _). discriminate H. }
  destruct (publish_wait_result "s/dbg/mode" (VStr "fpga_dev")) as [[] | e5]; wsimpl.
  2:{ cbn. repeat split; auto; try discriminate.
      intros (_ & _ & _ & H). discriminate H. }
  cbn -[Z.shiftr _version_u32_to_str str].
  split; [now left |]. split.
  { split; [intros _ | reflexivity].
    repeat split. exists hw, fw, fpga. auto. }
  split.
  { intros _. repeat split. intros ? ? ? [= <-] [= <-] [= <-]. reflexivity. }
  split; [discriminate |]. split; reflexivity.
Qed.

(** X8: [_open] never raises: it returns 0 or 1.  It returns 0 exactly
    when [driver.open], the three version queries, the statistics
    subscription and the debug-mode write all succeed; the device is then
    marked open and its descriptor carries the three version strings.
    Otherwise it returns 1 with the state 'closing' published and the
    device not marked open; [driver.close] is not called, even when
    [driver.open] had succeeded. *)
Theorem open_outcome (self : js220) :
  (snd (snd (_open self)) = Returned 0 \/ snd (snd (_open self)) = Returned 1) /\
  (snd (snd (_open self)) = Returned 0 <->
   open_result "restore" = Returned tt /\
   (exists hw fw fpga,
      _driver_query "c/hw/version" = Returned hw /\
      _driver_query "c/fw/version" = Returned fw /\
      _driver_query "s/fpga/version" = Returned fpga) /\
   subscribe_result "s/stats/value" = Returned tt /\
   publish_wait_result "s/dbg/mode" (VStr "fpga_dev") = Returned tt) /\
  (snd (snd (_open self)) = Returned 0 ->
   _driver_device_open (fst (_open self)) = true /\
   settings_state (fst (_open self)) = settings_state self /\
   _quit (fst (_open self)) = _quit self /\
   forall hw fw fpga,
     _driver_query "c/hw/version" = Returned hw ->
     _driver_query "c/fw/version" = Returned fw ->
     _driver_query "s/fpga/version" = Returned fpga ->
     version (_info (fst (_open self)))
     = Some (str (Z.shiftr hw 24), _version_u32_to_str fw, _version_u32_to_str fpga)) /\
  (snd (snd (_open self)) = Returned 1 ->
   _driver_device_open (fst (_open self)) = _driver_device_open self /\
   settings_state (fst (_open self)) = closing /\
   count_io is_driver_close (fst (snd (_open self))) = 0%nat) /\
  count_io is_driver_open (fst (snd (_open self))) = 1%nat /\
  count_io is_driver_close (fst (snd (_open self))) = 0%nat.
Proof. exact (open_cases self). Qed.

Lemma serve_quit (feed : list tick) (self : js220) :
  _quit self = true -> serve feed self = (self, ([], Returned (Some tt))).
Proof. intros H. destruct feed; cbn; rewrite H; reflexivity. Qed.

Lemma apply_write_quit (self : js220) (u : control_write) :
  _quit (apply_write self u) = match u with write_quit => true | _ => _quit self end.
Proof. destruct u; reflexivity. Qed.

(** X9: as long as the ticks are timeouts and commands other than
    'close' that return normally, the loop runs the commands in the
    order they arrive and goes on waiting.  It ends at the first 'close'
    command or at the first write of the quit flag, having run exactly
    the commands before it; what is queued behind is never run. *)
Theorem serve_in_order (pre rest : list tick) (self : js220) (args : option (string * pyval)) :
  _quit self = false ->
  quiet pre = true ->
  Forall (fun c => snd (_run_cmd self (fst c) (snd c)) = Returned tt) (commands_of pre) ->
  serve pre self = (self, (run_commands self (commands_of pre), Returned None)) /\
  serve (pre ++ tick_cmd ("close", args) :: rest) self
  = (self, (run_commands self (commands_of pre), Returned (Some tt))) /\
  serve (pre ++ tick_write write_quit :: rest) self
  = (set_quit self true, (run_commands self (commands_of pre), Returned (Some tt))).
Proof.
  intros Hq Hquiet Hok.
  induction pre as [| t pre IH].
  - cbn. rewrite Hq. cbn. repeat split.
    rewrite serve_quit by reflexivity. reflexivity.
  - destruct t as [| [cmd a] | u]; cbn in Hquiet; try discriminate.
    + destruct (IH Hquiet Hok) as (H1 & H2 & H3).
      cbn [serve app]. rewrite Hq. auto.
    + apply andb_prop in Hquiet. destruct Hquiet as [Hc Hquiet].
      cbn in Hok. inversion Hok as [| ? ? Hrun Hok']; subst. cbn [fst snd] in Hrun.
      destruct (IH Hquiet Hok') as (H1 & H2 & H3).
      apply negb_true_iff in Hc.
      cbn [serve app commands_of]. rewrite Hq, Hc.
      unfold w_bind, w_do. unfold run_commands. cbn [map List.concat fst snd].
      destruct (_run_cmd self cmd a) as [tr r]. cbn [snd] in Hrun. subst r.
      fold (run_commands self (commands_of pre)).
      rewrite H1, H2, H3. cbn [fst]. repeat split.
Qed.

(** X10: a command whose handler raises ends the loop with that
    exception: the commands before it have run, its own effects up to
    the exception have happened, and nothing behind it is run. *)
Theorem serve_handler_raises (pre rest : list tick) (self : js220) (c : command)
  (e : exn) :
  _quit self = false ->
  quiet pre = true ->
  Forall (fun c => snd (_run_cmd self (fst c) (snd c)) = Returned tt) (commands_of pre) ->
  fst c <> "close" ->
  snd (_run_cmd self (fst c) (snd c)) = Raised e ->
  serve (pre ++ tick_cmd c :: rest) self
  = (self, (run_commands self (commands_of pre ++ [c]), Raised e)).
Proof.
  intros Hq Hquiet Hok Hc He.
  induction pre as [| t pre IH].
  - destruct c as [cmd a]. cbn [app serve commands_of]. rewrite Hq.
    cbn [fst snd] in Hc, He. apply String.eqb_neq in Hc. rewrite Hc.
    unfold w_bind, w_do, run_commands. cbn [map List.concat fst snd].
    destruct (_run_cmd self cmd a) as [tr r]. cbn [snd] in He. subst r.
    rewrite app_nil_r. reflexivity.
  - destruct t as [| [cmd a] | u]; cbn in Hquiet; try discriminate.
    + cbn [serve app]. rewrite Hq. apply IH; assumption.
    + apply andb_prop in Hquiet. destruct Hquiet as [Hc' Hquiet].
      cbn in Hok. inversion Hok as [| ? ? Hrun Hok']; subst. cbn [fst snd] in Hrun.
      apply negb_true_iff in Hc'.
      cbn [serve app commands_of]. rewrite Hq, Hc'.
      unfold w_bind, w_do. unfold run_commands. cbn [map List.concat fst snd].
      destruct (_run_cmd self cmd a) as [tr r]. cbn [snd] in Hrun. subst r.
      fold (run_commands self (commands_of pre ++ [c])).
      rewrite (IH Hquiet Hok'). reflexivity.
Qed.

Lemma count_io_app (p : io -> bool) (a b : list io) :
  count_io p (a ++ b) = (count_io p a + count_io p b)%nat.
Proof. unfold count_io. now rewrite filter_app, length_app. Qed.

Lemma count_io_effects (p : io -> bool) (tr : list io) :
  (forall x, p (io_effect x) = false) ->
  forallb is_effect tr = true -> count_io p tr = 0%nat.
Proof.
  intros Hp. induction tr as [| e tr IH]; [reflexivity |].
  cbn [forallb]. intros H. apply andb_prop in H. destruct H as [He Ht].
  destruct e; try discriminate He. unfold count_io in *. cbn [filter].
  rewrite Hp. apply IH, Ht.
Qed.

Lemma forallb_is_effect_map (tr : list effect) :
  forallb is_effect (map io_effect tr) = true.
Proof. induction tr; cbn; auto. Qed.

(** The loop calls nothing but the handlers and leaves the open mark
    alone. *)
Lemma serve_frame (feed : list tick) (self : js220) :
  forallb is_effect (fst (snd (serve feed self))) = true /\
  _driver_device_open (fst (serve feed self)) = _driver_device_open self.
Proof.
  revert self. induction feed as [| t feed IH]; intros self.
  - cbn. destruct (_quit self); cbn; auto.
  - cbn [serve]. destruct (_quit self); [cbn; auto |].
    destruct t as [| [cmd a] | u].
    + apply IH.
    + destruct (cmd =? "close"); [cbn; auto |].
      unfold w_bind, w_do. destruct (_run_cmd self cmd a) as [tr [[] | e]].
      * destruct (IH self) as [H1 H2].
        destruct (serve feed self) as [s2 [tr2 r2]]. cbn [fst snd] in *.
        split; [| exact H2].
        rewrite forallb_app, forallb_is_effect_map, H1. reflexivity.
      * cbn [fst snd]. split; [apply forallb_is_effect_map | reflexivity].
    + destruct (IH (apply_write self u)) as [H1 H2]. split; [exact H1 |].
      rewrite H2. destruct u; reflexivity.
Qed.

(** [_close] makes no call to [driver.open] and touches no capability. *)
Lemma close_other_calls (self : js220) :
  count_io is_driver_open (fst (snd (_close self))) = 0%nat /\
  count_io is_capabilities_remove (fst (snd (_close self))) = 0%nat /\
  (count_io is_driver_close (fst (snd (_close self))) <= 1)%nat.
Proof.
  unfold _close, _close_cleanup. wsimpl.
  destruct (_driver_device_open self); wsimpl; [| cbn; auto].
  destruct (unsubscribe_result "s/stats/value") as [[] | ?]; wsimpl; [| cbn; auto].
  destruct (publish_wait_result "s/stats/ctrl" (VInt 0)) as [[] | ?];
    destruct close_result as [[] | ?]; cbn; auto.
Qed.

(** From the loop on, for a device marked open. *)
Lemma run_loop_facts (feed : list tick) (self : js220) :
  _driver_device_open self = true ->
  count_io is_driver_open (fst (snd (_run_loop feed self))) = 0%nat /\
  snd (snd (_run_loop feed self)) <> Returned (Some 1) /\
  (snd (snd (_run_loop feed self)) = Returned (Some 0) ->
   count_io is_driver_close (fst (snd (_run_loop feed self))) = 1%nat /\
   count_io is_capabilities_remove (fst (snd (_run_loop feed self))) = 1%nat /\
   _driver_device_open (fst (_run_loop feed self)) = false) /\
  (snd (snd (_run_loop feed self)) <> Returned (Some 0) ->
   count_io is_driver_close (fst (snd (_run_loop feed self))) = 0%nat) /\
  (forall e, snd (snd (_run_loop feed self)) = Raised e ->
   _driver_device_open (fst (_run_loop feed self)) = true).
Proof.
  intros Hopen. unfold _run_loop, w_bind.
  destruct (serve_frame feed self) as [Heff Hkeep].
  destruct (serve feed self) as [s4 [trs rs]]. cbn [fst snd] in *.
  rewrite Hopen in Hkeep.
  pose proof (count_io_effects is_driver_open trs (fun _ => eq_refl) Heff) as C1.
  pose proof (count_io_effects is_driver_close trs (fun _ => eq_refl) Heff) as C2.
  pose proof (count_io_effects is_capabilities_remove trs (fun _ => eq_refl) Heff) as C3.
  destruct rs as [[[] |] | e]; wsimpl.
  2, 3: rewrite ?app_nil_r; repeat split; try discriminate; auto;
    intros ? [= <-]; exact Hkeep.
  destruct (close_cases s4) as (_ & Hok & Hbad).
  destruct (close_other_calls s4) as (CO & CR & _).
  destruct (unsubscribe_result "s/stats/value") as [[] | eu] eqn:Hu.
  - destruct (Hok Hkeep eq_refl) as (R & F & _ & CC & _).
    destruct (_close s4) as [s5 [trc rc]]. cbn [fst snd] in *. subst rc. wsimpl.
    rewrite !count_io_app, C1, C2, C3, CO, CC, CR. cbn.
    repeat split; try discriminate; auto; congruence.
  - destruct (Hbad Hkeep eu eq_refl) as (R & F & CC & _).
    destruct (_close s4) as [s5 [trc rc]]. cbn [fst snd] in *. subst rc. wsimpl.
    rewrite !count_io_app, C1, C2, CO, CC. cbn.
    repeat split; try discriminate; auto.
Qed.

Lemma count_io_cons (p : io -> bool) (x : io) (l : list io) :
  count_io p (x :: l) = ((if p x then 1 else 0) + count_io p l)%nat.
Proof. unfold count_io. cbn [filter]. destruct (p x); reflexivity. Qed.

Lemma open_other_calls (self : js220) :
  count_io is_capabilities_remove (fst (snd (_open self))) = 0%nat.
Proof.
  unfold _open, _open_config. wsimpl.
  destruct (open_result "restore") as [[] | e0]; wsimpl; [| reflexivity].
  destruct (_driver_query "c/hw/version") as [hw | e1]; wsimpl; [| reflexivity].
  destruct (_driver_query "c/fw/version") as [fw | e2]; wsimpl; [| reflexivity].
  destruct (_driver_query "s/fpga/version") as [fpga | e3]; wsimpl; [| reflexivity].
  destruct (subscribe_result "s/stats/value") as [[] | e4]; wsimpl; [| reflexivity].
  destruct (publish_wait_result "s/dbg/mode" (VStr "fpga_dev")) as [[] | e5]; wsimpl;
    reflexivity.
Qed.

(** X11: the worker calls [driver.open] exactly once.  It returns 1
    exactly when [_open] returns 1, and then it has used nothing of what
    was queued.  When it returns 0 it has called [driver.close] exactly
    once and removed its capability once, and the device is marked
    closed.  In every other case, a worker that still serves or one
    that an exception has ended, [driver.close] has not been called; an
    exception leaves the worker only after [_open] has returned 0, with
    the device still marked open. *)
Theorem run_teardown (feed : list tick) (self : js220) :
  count_io is_driver_open (fst (snd (_run feed self))) = 1%nat /\
  (snd (snd (_run feed self)) = Returned (Some 1) <->
   snd (snd (_open self)) = Returned 1) /\
  (snd (snd (_open self)) = Returned 1 -> _run feed self = _run [] self) /\
  (snd (snd (_run feed self)) = Returned (Some 0) ->
   count_io is_driver_close (fst (snd (_run feed self))) = 1%nat /\
   count_io is_capabilities_remove (fst (snd (_run feed self))) = 1%nat /\
   _driver_device_open (fst (_run feed self)) = false) /\
  (snd (snd (_run feed self)) <> Returned (Some 0) ->
   count_io is_driver_close (fst (snd (_run feed self))) = 0%nat) /\
  (forall e, snd (snd (_run feed self)) = Raised e ->
   snd (snd (_open self)) = Returned 0 /\
   _driver_device_open (fst (_run feed self)) = true).
Proof.
  destruct (open_cases self) as (Hr & _ & H0 & H1 & Hopen & Hclose).
  pose proof (open_other_calls self) as Hrem.
  unfold _run, w_bind. wsimpl.
  destruct (_open self) as [s1 [tr1 r1]]. cbn [fst snd] in *.
  destruct Hr as [-> | ->]; wsimpl; cbn [Z.eqb Pos.eqb negb]; wsimpl.
  2:{ rewrite ?count_io_cons, ?count_io_app, ?Hopen, ?Hclose. cbn.
      repeat split; try discriminate; reflexivity. }
  destruct (H0 eq_refl) as (Hflag & _). clear H0 H1.
  change (_driver_device_open (set_settings_state s1 open) = true) in Hflag.
  set (s2 := set_settings_state s1 open) in *. clearbody s2.
  assert (Cf : forall (p : io -> bool) (tr : list effect),
            (forall x, p (io_effect x) = false) ->
            count_io p (map io_effect tr) = 0%nat).
  { intros p tr Hp. apply count_io_effects; [exact Hp | apply forallb_is_effect_map]. }
  unfold w_do.
  destruct (_is_firmware_update_available s2) as [trf [fa | ef]]; wsimpl.
  2:{ repeat (rewrite count_io_cons || rewrite count_io_app).
      rewrite ?Cf by (intros; reflexivity). rewrite ?Hopen, ?Hclose. cbn.
      split; [reflexivity |].
      split; [split; discriminate |].
      split; [discriminate |].
      split; [discriminate |].
      split; [reflexivity |].
      intros e _. split; [reflexivity | exact Hflag]. }
  assert (Hloop : forall s3, _driver_device_open s3 = true ->
            forall P : js220 * (list io * outcome (option Z)) -> Prop,
            (forall s4 tr2 r2,
               count_io is_driver_open tr2 = 0%nat ->
               r2 <> Returned (Some 1) ->
               (r2 = Returned (Some 0) ->
                count_io is_driver_close tr2 = 1%nat /\
                count_io is_capabilities_remove tr2 = 1%nat /\
                _driver_device_open s4 = false) ->
               (r2 <> Returned (Some 0) -> count_io is_driver_close tr2 = 0%nat) ->
               (forall e, r2 = Raised e -> _driver_device_open s4 = true) ->
               P (s4, (tr2, r2))) ->
            P (_run_loop feed s3)).
  { intros s3 Hs3 P HP.
    destruct (run_loop_facts feed s3 Hs3) as (L1 & L2 & L3 & L4 & L5).
    destruct (_run_loop feed s3) as [s4 [tr2 r2]]. apply HP; assumption. }
  destruct fa as [rv |]; wsimpl.
  - destruct (publish_wait_result "h/!reset" (VStr "update1")) as [[] | er]; wsimpl.
    + pattern (_run_loop feed (set_quit s2 true)).
      apply Hloop; [exact Hflag |]. intros s4 tr2 r2 L1 L2 L3 L4 L5. wsimpl.
      repeat (rewrite count_io_cons || rewrite count_io_app).
      rewrite ?Cf by (intros; reflexivity). rewrite ?Hopen, ?Hclose, ?Hrem, ?L1.
      cbn [Nat.add is_driver_open is_driver_close is_capabilities_remove].
      split; [reflexivity |].
      split; [split; [intros H; contradiction | discriminate] |].
      split; [discriminate |].
      split; [exact L3 |].
      split; [exact L4 |].
      intros e He. split; [reflexivity | exact (L5 e He)].
    + repeat (rewrite count_io_cons || rewrite count_io_app).
      rewrite ?Cf by (intros; reflexivity). rewrite ?Hopen, ?Hclose, ?Hrem.
      cbn [Nat.add is_driver_open is_driver_close is_capabilities_remove count_io
           filter List.length].
      split; [reflexivity |].
      split; [split; discriminate |].
      split; [discriminate |].
      split; [discriminate |].
      split; [reflexivity |].
      intros e _. split; [reflexivity | exact Hflag].
  - pattern (_run_loop feed s2).
    apply Hloop; [exact Hflag |]. intros s4 tr2 r2 L1 L2 L3 L4 L5. wsimpl.
    repeat (rewrite count_io_cons || rewrite count_io_app).
    rewrite ?Cf by (intros; reflexivity). rewrite ?Hopen, ?Hclose, ?Hrem, ?L1.
    cbn [Nat.add is_driver_open is_driver_close is_capabilities_remove].
    split; [reflexivity |].
    split; [split; [intros H; contradiction | discriminate] |].
    split; [discriminate |].
    split; [exact L3 |].
    split; [exact L4 |].
    intros e He. split; [reflexivity | exact (L5 e He)].
Qed.










Lemma startswith_app (p s : string) : startswith p (p ++ s) = true.
Proof.
  unfold startswith. induction p as [| c p IH]; cbn; [destruct s; reflexivity |].
  destruct (ascii_dec c c) as [_ | N]; [exact IH | contradiction].
Qed.

Lemma drop_app (p s : string) : drop (String.length p) (p ++ s) = s.
Proof. induction p as [| c p IH]; cbn; [reflexivity | exact IH]. Qed.

Lemma on_settings_of_setting (self : js220) (rest : string) (value : pyval) :
  _thread self <> None ->
  _on_settings self (topic_name self ++ "/settings/" ++ rest) value
  = (_send_to_thread self "settings" (Some (rest, value)), []).
Proof.
  intros Ht. unfold _on_settings.
  destruct (_thread self) as [w |]; [| contradiction].
  rewrite <- string_app_assoc, startswith_app, drop_app. reflexivity.
Qed.

(** X14: the device control widget makes one button for each declared
    signal and one for each output, and no other.  With a worker
    running, toggling a signal's button reaches the device as a
    'settings' command whose handling returns and writes the signal's
    control register, true when checked; toggling an output's button
    writes the output's bit to the set register when checked and to the
    clear register otherwise. *)
Theorem widget_buttons_reach_registers (self : js220) (name_ : string)
  (info : device_info) (checked : bool) :
  _thread self <> None ->
  topic_name self = get_topic_name (unique_id self) ->
  signal_buttons (keys (instance_settings name_ info)) = Returned (keys _SIGNALS) /\
  gpo_buttons (keys (instance_settings name_ info)) = keys _GPO_BIT /\
  (forall signal s, In (signal, s) _SIGNALS ->
     exists rest,
       _on_settings self
         (fst (signal_button_toggled (unique_id self) signal checked))
         (snd (signal_button_toggled (unique_id self) signal checked))
       = (_send_to_thread self "settings" (Some (rest, VBool checked)), []) /\
       snd (_run_cmd self "settings" (Some (rest, VBool checked))) = Returned tt /\
       driver_publishes (fst (_run_cmd self "settings" (Some (rest, VBool checked))))
       = [(fst (topics s), VBool checked)]) /\
  (forall signal bit, In (signal, bit) _GPO_BIT ->
     exists rest,
       _on_settings self
         (fst (gpo_button_toggled (unique_id self) signal checked))
         (snd (gpo_button_toggled (unique_id self) signal checked))
       = (_send_to_thread self "settings" (Some (rest, VBool checked)), []) /\
       snd (_run_cmd self "settings" (Some (rest, VBool checked))) = Returned tt /\
       driver_publishes (fst (_run_cmd self "settings" (Some (rest, VBool checked))))
       = [(if checked then "s/gpo/+/!set" else "s/gpo/+/!clr", VInt bit)]).
Proof.
  intros Ht Hn.
  split; [reflexivity |]. split; [reflexivity |]. split.
  - intros signal s Hin.
    exists ("signals/" ++ signal ++ "/enable")%string.
    unfold signal_button_toggled. cbn [fst snd]. rewrite <- Hn.
    change (topic_name self ++ "/settings/signals/" ++ signal ++ "/enable")%string
      with (topic_name self ++ "/settings/" ++ "signals/" ++ signal ++ "/enable")%string.
    rewrite (on_settings_of_setting self _ _ Ht). split; [reflexivity |].
    cbn in Hin.
    repeat (destruct Hin as [Hin | Hin];
            [injection Hin as <- <-; destruct checked; split; reflexivity |]).
    contradiction.
  - intros signal bit Hin.
    exists ("out/" ++ signal)%string.
    unfold gpo_button_toggled. cbn [fst snd]. rewrite <- Hn.
    change (topic_name self ++ "/settings/out/" ++ signal)%string
      with (topic_name self ++ "/settings/" ++ "out/" ++ signal)%string.
    rewrite (on_settings_of_setting self _ _ Ht). split; [reflexivity |].
    cbn in Hin.
    repeat (destruct Hin as [Hin | Hin];
            [injection Hin as <- <-; destruct checked; split; reflexivity |]).
    contradiction.
Qed.

End WorkerFacts.

Lemma close_teardown_witness :
  snd (snd (@_close transport_lost js220_manual)) = Returned tt /\
  _driver_device_open (fst (@_close transport_lost js220_manual)) = false.
Proof.
  destruct (@close_teardown transport_lost js220_manual) as (_ & H & _).
  destruct (H eq_refl eq_refl) as (H1 & H2 & _). split; assumption.
Defined.

Lemma open_outcome_witness :
  snd (snd (@_open transport_ok driver_hw2 js220_starting)) = Returned 0 /\
  version (_info (fst (@_open transport_ok driver_hw2 js220_starting)))
  = Some ("2", "1.1.0", "1.0.0").
Proof.
  destruct (@open_outcome transport_ok driver_hw2 js220_starting)
    as (_ & H0 & Hv & _).
  assert (E : snd (snd (@_open transport_ok driver_hw2 js220_starting)) = Returned 0).
  { apply H0. repeat split; try reflexivity.
    exists 33554432, 16842752, 16777216. repeat split; reflexivity. }
  split; [exact E |].
  destruct (Hv E) as (_ & _ & _ & V).
  exact (V 33554432 16842752 16777216 eq_refl eq_refl eq_refl).
Defined.

Lemma settings_handler_registers_witness :
  bus_publishes (fst (_run_cmd_settings js220_manual "signal_frequency" (VInt 1000))) = [].
Proof.
  apply (settings_handler_registers js220_manual "signal_frequency" (VInt 1000)).
  discriminate.
Defined.

Lemma serve_in_order_witness :
  serve ([tick_empty; tick_cmd ("settings", Some ("signal_frequency", VInt 1000))]
         ++ tick_cmd ("close", None) :: [tick_cmd ("current_range_update", None)])
    js220_manual
  = (js220_manual,
     ([io_effect (log info "setting(%s): %s <= %s");
       io_effect (driver_publish "h/fs" (VInt 1000))], Returned (Some tt))).
Proof.
  refine (proj1 (proj2 (serve_in_order
           [tick_empty; tick_cmd ("settings", Some ("signal_frequency", VInt 1000))]
           [tick_cmd ("current_range_update", None)] js220_manual None _ _ _))).
  - reflexivity.
  - reflexivity.
  - apply Forall_cons; [reflexivity | apply Forall_nil].
Defined.

Lemma serve_handler_raises_witness :
  serve ([tick_empty]
         ++ tick_cmd ("settings", Some ("signals/x/enable", VBool true))
            :: [tick_cmd ("close", None)])
    js220_manual
  = (js220_manual,
     ([io_effect (log info "setting(%s): %s <= %s")], Raised (KeyError (VStr "x")))).
Proof.
  apply (serve_handler_raises [tick_empty] [tick_cmd ("close", None)] js220_manual
           ("settings", Some ("signals/x/enable", VBool true)) (KeyError (VStr "x"))).
  - reflexivity.
  - reflexivity.
  - apply Forall_nil.
  - discriminate.
  - reflexivity.
Defined.

Lemma run_teardown_witness :
  count_io is_driver_close
    (fst (snd (@_run transport_ok release_1_0_0 driver_hw2
                 [tick_cmd ("settings", Some ("signal_frequency", VInt 1000));
                  tick_empty; tick_cmd ("close", None)] js220_starting))) = 1%nat /\
  count_io is_capabilities_remove
    (fst (snd (@_run transport_ok release_1_0_0 driver_hw2
                 [tick_cmd ("settings", Some ("signal_frequency", VInt 1000));
                  tick_empty; tick_cmd ("close", None)] js220_starting))) = 1%nat /\
  _driver_device_open
    (fst (@_run transport_ok release_1_0_0 driver_hw2
            [tick_cmd ("settings", Some ("signal_frequency", VInt 1000));
             tick_empty; tick_cmd ("close", None)] js220_starting)) = false.
Proof.
  apply (@run_teardown transport_ok release_1_0_0 driver_hw2
           [tick_cmd ("settings", Some ("signal_frequency", VInt 1000));
            tick_empty; tick_cmd ("close", None)] js220_starting).
  vm_compute. reflexivity.
Defined.



Lemma widget_buttons_reach_registers_witness :
  signal_buttons (keys (instance_settings "JS220-000123" (_info js220_manual)))
  = Returned ["i"; "v"; "p"; "r"; "0"; "1"; "2"; "3"; "T"] /\
  gpo_buttons (keys (instance_settings "JS220-000123" (_info js220_manual)))
  = ["0"; "1"; "T"].
Proof.
  destruct (@widget_buttons_reach_registers registry_topics js220_manual
              "JS220-000123" (_info js220_manual) true)
    as (H1 & H2 & _).
  - discriminate.
  - reflexivity.
  - split; [exact H1 | exact H2].
Defined.
